(** * ArtistMusicProject: the data-normalisation and pagination core

    A shallow embedding of [artist_data/utils.py],
    [artist_data/extract/genius_extract.py],
    [artist_data/extract/spotify_extract.py] and the two modules of
    [artist_data/client], followed by the properties of the specification
    that were checked against it and by further properties of the code.

    Python values are embedded as a small JSON-like universe (no floats, no
    user objects); a raised exception is a value of the error monad
    [result]; the provider clients are records of functions; a [while]
    loop over the pages of a provider runs on fuel; the one function that
    mutates its argument, [flat_nested_dictionary], runs on a heap.  The
    progress bars and the [print] of the source leave no trace here. *)

From Stdlib Require Import ZArith String List Bool Lia.
From stdpp Require Import base option strings gmap.
Import ListNotations.
Local Open Scope string_scope.
Local Open Scope list_scope.

(** ** Python values *)

Module Py.

(** The values a decoded provider response is made of.  A [dict] keeps its
    entries in insertion order, with string keys as in [Dict[str, Any]]. *)
#[warnings="-register-all"]
Inductive value : Type :=
| VNone
| VBool (b : bool)
| VInt (z : Z)
| VStr (s : string)
| VList (l : list value)
| VDict (d : list (string * value)).

Definition dict : Type := list (string * value).

(** Exception classes: the builtin ones this code can meet, a class for
    failures raised inside a provider client, and the three classes
    declared at the top of [genius_extract.py]. *)
Inductive exn_class : Type :=
| AttributeError
| TypeError
| KeyError
| IndexError
| ValueError
| ClientError
| GeniusAPIError
| ArtistNotFoundError
| TrackDataError.

Record exn : Type := Exn { exn_cls : exn_class; exn_msg : string }.

Definition exn_class_eqb (a b : exn_class) : bool :=
  match a, b with
  | AttributeError, AttributeError | TypeError, TypeError
  | KeyError, KeyError | IndexError, IndexError | ValueError, ValueError
  | ClientError, ClientError | GeniusAPIError, GeniusAPIError
  | ArtistNotFoundError, ArtistNotFoundError
  | TrackDataError, TrackDataError => true
  | _, _ => false
  end.

(** [class ArtistNotFoundError(GeniusAPIError)] and
    [class TrackDataError(GeniusAPIError)]: the only subclassing between the
    classes above. *)
Definition subclass (c parent : exn_class) : bool :=
  exn_class_eqb c parent ||
  match c, parent with
  | ArtistNotFoundError, GeniusAPIError => true
  | TrackDataError, GeniusAPIError => true
  | _, _ => false
  end.

Definition isinstance (e : exn) (c : exn_class) : bool := subclass (exn_cls e) c.

(** The error monad: a call returns or raises. *)
Inductive result (A : Type) : Type :=
| Ok (a : A)
| Raise (e : exn).
Arguments Ok {A} a.
Arguments Raise {A} e.

Definition bind {A B} (r : result A) (k : A -> result B) : result B :=
  match r with
  | Ok a => k a
  | Raise e => Raise e
  end.

(** [try: body  except Exception as e: raise h(e)] *)
Definition try_except {A} (body : result A) (handler : exn -> result A) : result A :=
  match body with
  | Ok a => Ok a
  | Raise e => handler e
  end.

Fixpoint mapM {A B} (f : A -> result B) (l : list A) : result (list B) :=
  match l with
  | [] => Ok []
  | x :: l' => bind (f x) (fun y => bind (mapM f l') (fun ys => Ok (y :: ys)))
  end.

Definition type_name (v : value) : string :=
  match v with
  | VNone => "NoneType"
  | VBool _ => "bool"
  | VInt _ => "int"
  | VStr _ => "str"
  | VList _ => "list"
  | VDict _ => "dict"
  end.

(** [bool(v)] *)
Definition truthy (v : value) : bool :=
  match v with
  | VNone => false
  | VBool b => b
  | VInt z => negb (Z.eqb z 0)
  | VStr s => negb (String.eqb s "")
  | VList l => match l with [] => false | _ => true end
  | VDict d => match d with [] => false | _ => true end
  end.

(** [hash(v)] succeeds: lists and dicts are unhashable. *)
Definition hashable (v : value) : bool :=
  match v with
  | VList _ | VDict _ => false
  | _ => true
  end.

Definition is_dict (v : value) : bool :=
  match v with VDict _ => true | _ => false end.

Fixpoint dict_lookup (k : string) (d : dict) : option value :=
  match d with
  | [] => None
  | (k', v) :: d' => if String.eqb k' k then Some v else dict_lookup k d'
  end.

(** [a == b].  [bool] is a subclass of [int]; lists compare element by
    element; dicts compare as maps, whatever the insertion order. *)
Fixpoint py_eq (a b : value) {struct a} : bool :=
  match a, b with
  | VNone, VNone => true
  | VBool x, VBool y => Bool.eqb x y
  | VBool x, VInt y => Z.eqb (Z.b2z x) y
  | VInt x, VBool y => Z.eqb x (Z.b2z y)
  | VInt x, VInt y => Z.eqb x y
  | VStr x, VStr y => String.eqb x y
  | VList xs, VList ys =>
      (fix go (xs ys : list value) {struct xs} : bool :=
         match xs, ys with
         | [], [] => true
         | x :: xs', y :: ys' => py_eq x y && go xs' ys'
         | _, _ => false
         end) xs ys
  | VDict d1, VDict d2 =>
      Nat.eqb (List.length d1) (List.length d2) &&
      (fix go (d : dict) {struct d} : bool :=
         match d with
         | [] => true
         | (k, v) :: d' =>
             match dict_lookup k d2 with
             | Some w => py_eq v w
             | None => false
             end && go d'
         end) d1
  | _, _ => false
  end.

(** A [str] is held as its UTF-8 bytes, so a character is a leading
    byte together with the continuation bytes ([10xxxxxx]) after it. *)
Definition continuation (c : Ascii.ascii) : bool :=
  match c with
  | Ascii.Ascii _ _ _ _ _ _ b6 b7 => b7 && negb b6
  end.

(** The continuation bytes that [s] starts with, and the characters
    after them. *)
Fixpoint char_chunks (s : string) : string * list value :=
  match s with
  | EmptyString => (EmptyString, [])
  | String c s' =>
      let (pending, rest) := char_chunks s' in
      if continuation c then (String c pending, rest)
      else (EmptyString, VStr (String c pending) :: rest)
  end.

(** The characters of a string, each as a one-character string. *)
Definition chars (s : string) : list value :=
  match char_chunks s with
  | (EmptyString, rest) => rest
  | (pending, rest) => VStr pending :: rest
  end.

(** [iter(v)]: what a [for] loop, a comprehension or [list.extend] walks. *)
Definition py_iter (v : value) : result (list value) :=
  match v with
  | VList l => Ok l
  | VDict d => Ok (map (fun kv => VStr (fst kv)) d)
  | VStr s => Ok (chars s)
  | _ => Raise (Exn TypeError ("'" +:+ type_name v +:+ "' object is not iterable"))
  end.

(** [v[0]] *)
Definition py_index0 (v : value) : result value :=
  match v with
  | VList (x :: _) => Ok x
  | VList [] => Raise (Exn IndexError "list index out of range")
  | VStr s =>
      match chars s with
      | x :: _ => Ok x
      | [] => Raise (Exn IndexError "string index out of range")
      end
  | VDict _ => Raise (Exn KeyError "0")
  | _ => Raise (Exn TypeError ("'" +:+ type_name v +:+ "' object is not subscriptable"))
  end.

(** [v[k]] for a string literal [k] *)
Definition py_getitem (v : value) (k : string) : result value :=
  match v with
  | VDict d =>
      match dict_lookup k d with
      | Some x => Ok x
      | None => Raise (Exn KeyError ("'" +:+ k +:+ "'"))
      end
  | VList _ => Raise (Exn TypeError "list indices must be integers or slices, not str")
  | VStr _ => Raise (Exn TypeError "string indices must be integers, not 'str'")
  | _ => Raise (Exn TypeError ("'" +:+ type_name v +:+ "' object is not subscriptable"))
  end.

(** [d[k] = v] on an insertion-ordered dict: an existing key keeps its
    place, a new key goes last. *)
Fixpoint dict_set (k : string) (v : value) (d : dict) : dict :=
  match d with
  | [] => [(k, v)]
  | (k', v') :: d' =>
      if String.eqb k' k then (k', v) :: d' else (k', v') :: dict_set k v d'
  end.

(** [d.update(other)] *)
Definition dict_update (d other : dict) : dict :=
  fold_left (fun acc kv => dict_set (fst kv) (snd kv) acc) other d.

(** [d.pop(k, None)], the popped value dropped: no entry for [k] stays. *)
Definition dict_pop (k : string) (d : dict) : dict :=
  List.filter (fun kv => negb (String.eqb (fst kv) k)) d.

(** The keys of a Python dict are distinct. *)
Definition distinct_keys (d : dict) : Prop := List.NoDup (map fst d).

End Py.

(** ** [artist_data/utils.py] *)

Module Utils.
Import Py.

(** Modelled from the spec: the constant [UNKNOWN_VALUE] that [utils.py]
    imports from [artist_data/setup.py], a file that is not among the
    sources.  The spec calls it a magic string, and the docstrings of
    [utils.py] give it as 'UNKNOWN'. *)
Definition UNKNOWN_VALUE : value := VStr "UNKNOWN".

(** [data.get(key, UNKNOWN_VALUE)].  The attribute [get] is looked up
    first, so a non-dict raises [AttributeError] whatever the key; then
    the key is hashed, so an unhashable key raises [TypeError] whatever the
    dict; a hashable key that is not a string is no key of a
    string-keyed dict. *)
Definition safe_get (data key UNKNOWN_VALUE : value) : result value :=
  match data with
  | VDict d =>
      if hashable key then
        match key with
        | VStr k =>
            match dict_lookup k d with
            | Some v => Ok v
            | None => Ok UNKNOWN_VALUE
            end
        | _ => Ok UNKNOWN_VALUE
        end
      else Raise (Exn TypeError ("unhashable type: '" +:+ type_name key +:+ "'"))
  | _ => Raise (Exn AttributeError
                  ("'" +:+ type_name data +:+ "' object has no attribute 'get'"))
  end.

(** The [for] loop of [extract_value], with its [break]. *)
Fixpoint extract_loop (value : value) (key_path : list Py.value)
    (UNKNOWN_VALUE : Py.value) : result Py.value :=
  match key_path with
  | [] => Ok value
  | key :: rest =>
      bind (safe_get value key UNKNOWN_VALUE) (fun value' =>
        if py_eq value' UNKNOWN_VALUE then Ok value'
        else extract_loop value' rest UNKNOWN_VALUE)
  end.

Definition extract_value (data : value) (key_path : list value)
    (UNKNOWN_VALUE : value) : result value :=
  match extract_loop data key_path UNKNOWN_VALUE with
  | Ok value => Ok (if truthy value then value else UNKNOWN_VALUE)
  | Raise e =>
      if isinstance e AttributeError then Ok UNKNOWN_VALUE else Raise e
  end.

Definition safe_extract (data : value) (key_path : list value)
    (UNKNOWN_VALUE : value) : result value :=
  extract_value data key_path UNKNOWN_VALUE.

(** The body of [flat_nested_dictionary] on the contents of the object
    [d]: the contents that [d] holds when the call returns. *)
Definition flat_nested_contents (d : value) (parent_key : value) : result value :=
  bind (safe_get d parent_key (VDict [])) (fun nested_dict =>
    match d with
    | VDict entries =>
        let entries' :=
          match nested_dict with
          | VDict nested => dict_update entries nested
          | _ => entries
          end in
        Ok (VDict (match parent_key with
                   | VStr k => dict_pop k entries'
                   | _ => entries'
                   end))
    | _ => Ok d
    end).

(** Objects live in a heap; a reference is a location.  A location that
    the heap does not hold reads as [None], which no caller passes. *)
Definition loc : Type := nat.
Definition heap : Type := gmap nat value.

Definition deref (h : heap) (l : loc) : value := default VNone (h !! l).

(** [flat_nested_dictionary(d, parent_key)]: mutates the object behind
    the reference [d] and returns that very reference. *)
Definition flat_nested_dictionary (d : loc) (parent_key : value) (h : heap)
    : result (loc * heap) :=
  bind (flat_nested_contents (deref h d) parent_key) (fun contents =>
    Ok (d, <[d := contents]> h)).

End Utils.

Notation "x <- e ;; k" := (Py.bind e (fun x => k))
  (at level 100, e at next level, right associativity).

(** ** [artist_data/extract/genius_extract.py] *)

Module Genius.
Import Py Utils.

(** What [search_artist] hands back: an object of the client library, of
    which the code uses its truth value ([not artist]) and [to_dict()]. *)
Record artist_obj : Type := { artist_truthy : bool; to_dict : value }.

(** The client: [search_artist(artist_name, max_songs=n_tracks,
    get_full_info=True)] returns an artist object or [None], or raises. *)
Record genius_client : Type :=
  { search_artist : string -> Z -> result (option artist_obj) }.

Definition not_found_error (artist_name : string) : exn :=
  Exn ArtistNotFoundError ("Artist '" +:+ artist_name +:+ "' not found on Genius.").

Definition genius_artist_search (client : genius_client) (artist_name : string)
    (n_tracks : Z) : result value :=
  try_except
    (artist <- search_artist client artist_name n_tracks ;;
     match artist with
     | None => Raise (not_found_error artist_name)
     | Some a =>
         if negb (artist_truthy a) then Raise (not_found_error artist_name)
         else
           name <- safe_get (to_dict a) (VStr "name") UNKNOWN_VALUE ;;
           if negb (py_eq name (VStr artist_name))
           then Raise (not_found_error artist_name)
           else Ok (to_dict a)
     end)
    (fun e => Raise (Exn GeniusAPIError
       ("Error fetching artist '" +:+ artist_name +:+ "' from Genius API: "
        +:+ exn_msg e))).

(** The comprehension
    [[safe_get(artist, 'name') for artist in primary_artists
      if safe_get(artist, 'name') != primary_artist]]. *)
Fixpoint other_primary_artists (artists : list value) (primary_artist : value)
    : result (list value) :=
  match artists with
  | [] => Ok []
  | artist :: rest =>
      name <- safe_get artist (VStr "name") UNKNOWN_VALUE ;;
      if negb (py_eq name primary_artist) then
        name' <- safe_get artist (VStr "name") UNKNOWN_VALUE ;;
        names <- other_primary_artists rest primary_artist ;;
        Ok (name' :: names)
      else other_primary_artists rest primary_artist
  end.

Definition build_genius_artist_track (genius_artist_track : value) : result value :=
  if py_eq genius_artist_track (VDict []) then Ok VNone
  else
    try_except
      (let t := genius_artist_track in
       primary_artist <- safe_extract t [VStr "primary_artist"; VStr "name"] UNKNOWN_VALUE ;;
       primary_artists <- safe_get t (VStr "primary_artists") (VList []) ;;
       track_id <- safe_get t (VStr "id") UNKNOWN_VALUE ;;
       title <- safe_get t (VStr "title") UNKNOWN_VALUE ;;
       release_date <- safe_get t (VStr "release_date") UNKNOWN_VALUE ;;
       album <- safe_get t (VStr "album") UNKNOWN_VALUE ;;
       api_path <- safe_get t (VStr "api_path") UNKNOWN_VALUE ;;
       pageviews <- safe_extract t [VStr "stats"; VStr "pageviews"] UNKNOWN_VALUE ;;
       url <- safe_get t (VStr "url") UNKNOWN_VALUE ;;
       image_url <- safe_get t (VStr "song_art_image_url") UNKNOWN_VALUE ;;
       language <- safe_get t (VStr "language") UNKNOWN_VALUE ;;
       description <- safe_extract t [VStr "description"; VStr "plain"] UNKNOWN_VALUE ;;
       lyrics <- safe_get t (VStr "lyrics") UNKNOWN_VALUE ;;
       lyrics_state <- safe_get t (VStr "lyrics_state") UNKNOWN_VALUE ;;
       artists <- py_iter primary_artists ;;
       others <- other_primary_artists artists primary_artist ;;
       featured <- safe_get t (VStr "featured_artists") (VList []) ;;
       Ok (VDict
             [("genius_track_id", track_id);
              ("genius_title", title);
              ("genius_release_date", release_date);
              ("genius_album", album);
              ("genius_track_api_path", api_path);
              ("genius_pageviews", pageviews);
              ("genius_track_url", url);
              ("genius_track_image_url", image_url);
              ("genius_track_language", language);
              ("genius_track_description", description);
              ("genius_lyrics", lyrics);
              ("genius_lyrics_is_complete", lyrics_state);
              ("primary_artist", primary_artist);
              ("primary_artists", VList others);
              ("genius_featured_artists", featured)]))
      (fun e => Raise (Exn TrackDataError
         ("Error occurred while building track data: " +:+ exn_msg e))).

Definition build_genius_artist_data (genius_artist_search_result : value)
    : result value :=
  try_except
    (let r := genius_artist_search_result in
     artist_id <- safe_get r (VStr "id") UNKNOWN_VALUE ;;
     name <- safe_get r (VStr "name") UNKNOWN_VALUE ;;
     alternate_names <- safe_get r (VStr "alternate_names") (VList []) ;;
     api_path <- safe_get r (VStr "api_path") UNKNOWN_VALUE ;;
     url <- safe_get r (VStr "url") UNKNOWN_VALUE ;;
     image_url <- safe_get r (VStr "image_url") UNKNOWN_VALUE ;;
     description <- safe_extract r [VStr "description"; VStr "plain"] UNKNOWN_VALUE ;;
     twitter_name <- safe_get r (VStr "twitter_name") UNKNOWN_VALUE ;;
     facebook_name <- safe_get r (VStr "facebook_name") UNKNOWN_VALUE ;;
     instagram_name <- safe_get r (VStr "instagram_name") UNKNOWN_VALUE ;;
     is_verified <- safe_get r (VStr "is_verified") UNKNOWN_VALUE ;;
     songs <- safe_get r (VStr "songs") (VDict []) ;;
     tracks <- py_iter songs ;;
     genius_tracks <- mapM build_genius_artist_track tracks ;;
     Ok (VDict
           [("genius_artist_id", artist_id);
            ("genius_artist_name", name);
            ("genius_alternate_names", alternate_names);
            ("genius_artist_api_path", api_path);
            ("genius_artist_url", url);
            ("genius_artist_image_url", image_url);
            ("genius_artist_description", description);
            ("genius_twitter_name", twitter_name);
            ("genius_facebook_name", facebook_name);
            ("genius_instagram_name", instagram_name);
            ("genius_is_verified", is_verified);
            ("genius_tracks", VList genius_tracks)]))
    (fun e => Raise (Exn TrackDataError
       ("Error occurred while building artist data: " +:+ exn_msg e))).

(** [{key: value for key, value in d.items() if key != 'genius_tracks'}] *)
Definition without_tracks (d : value) : result value :=
  match d with
  | VDict entries =>
      Ok (VDict (List.filter (fun kv => negb (String.eqb (fst kv) "genius_tracks"))
                            entries))
  | _ => Raise (Exn AttributeError
                  ("'" +:+ type_name d +:+ "' object has no attribute 'items'"))
  end.

(** The two [except] clauses of [fetch_genius_artist_data], in order. *)
Definition genius_boundary (e : exn) : result value :=
  if isinstance e GeniusAPIError || isinstance e ArtistNotFoundError
     || isinstance e TrackDataError
  then Raise e
  else Raise (Exn GeniusAPIError ("Unexpected error: " +:+ exn_msg e)).

Definition fetch_genius_artist_data (client : genius_client) (artist_name : string)
    (n_tracks : Z) : result value :=
  try_except
    (genius_artist <- genius_artist_search client artist_name n_tracks ;;
     genius_artist_data <- build_genius_artist_data genius_artist ;;
     artist_data <- without_tracks genius_artist_data ;;
     artist_tracks <- safe_get genius_artist_data (VStr "genius_tracks") (VDict []) ;;
     Ok (VDict [("artist_data", artist_data); ("artist_tracks", artist_tracks)]))
    genius_boundary.

End Genius.

(** ** [artist_data/extract/spotify_extract.py] *)

Module Spotify.
Import Py Utils.

(** The client methods the module calls, each returning or raising:
    [search(artist_name, type='artist')],
    [artist_related_artists(artist_id)],
    [artist_albums(artist_id, album_type=..., limit=50)],
    [album_tracks(album_id)], [next(results)] and [audio_features(track_id)]. *)
Record spotify_client : Type :=
  { search : string -> result value;
    artist_related_artists : value -> result value;
    artist_albums : value -> string -> result value;
    album_tracks : value -> result value;
    next : value -> result value;
    audio_features : value -> result value }.

(** A [while] loop runs on fuel, one unit per iteration: [None] says the
    loop was still running when the fuel ran out. *)
Definition outcome (A : Type) : Type := option (result A).

Definition obind {A B} (o : outcome A) (k : A -> outcome B) : outcome B :=
  match o with
  | Some (Ok a) => k a
  | Some (Raise e) => Some (Raise e)
  | None => None
  end.

Definition spotify_artist_search (client : spotify_client) (artist_name : string)
    : result value :=
  found <- search client artist_name ;;
  spotify_artist_search_result <-
    safe_extract found [VStr "artists"; VStr "items"] VNone ;;
  if truthy spotify_artist_search_result
  then py_index0 spotify_artist_search_result
  else Raise (Exn ValueError
                ("No artist found with the name '" +:+ artist_name +:+ "'")).

Definition build_spotify_artist_data (client : spotify_client)
    (spotify_artist_search_result : value) : result value :=
  let r := spotify_artist_search_result in
  artist_id <- safe_get r (VStr "id") UNKNOWN_VALUE ;;
  name <- safe_get r (VStr "name") UNKNOWN_VALUE ;;
  uri <- safe_get r (VStr "uri") UNKNOWN_VALUE ;;
  href <- safe_get r (VStr "href") UNKNOWN_VALUE ;;
  images <- safe_get r (VStr "images") UNKNOWN_VALUE ;;
  image <- py_index0 images ;;
  image_url <- safe_get image (VStr "url") UNKNOWN_VALUE ;;
  followers <- safe_extract r [VStr "followers"; VStr "total"] UNKNOWN_VALUE ;;
  popularity <- safe_get r (VStr "popularity") UNKNOWN_VALUE ;;
  genres <- safe_get r (VStr "genres") UNKNOWN_VALUE ;;
  related_id <- safe_get r (VStr "id") UNKNOWN_VALUE ;;
  related <- artist_related_artists client related_id ;;
  related_artists <- safe_get related (VStr "artists") UNKNOWN_VALUE ;;
  related_list <- py_iter related_artists ;;
  related_names <-
    mapM (fun artist_related => safe_get artist_related (VStr "name") UNKNOWN_VALUE)
         related_list ;;
  Ok (VDict
        [("spotify_artist_id", artist_id);
         ("spotify_artist_name", name);
         ("spotify_artist_uri_path", uri);
         ("spotify_artist_url", href);
         ("spotify_artist_image_url", image_url);
         ("spotify_artist_n_followers", followers);
         ("spotify_popularity", popularity);
         ("spotify_artist_genres", genres);
         ("spotify_related_artists", VList related_names)]).

(** The loop that [get_artist_albums] and [get_album_tracks] both spell
    out, on the accumulator [albums] (there [tracks]):
    [while results: acc.extend(results['items']);
     if results['next']: results = client.next(results)  else: break]. *)
Fixpoint collect_pages (fuel : nat) (client : spotify_client) (acc : list value)
    (results : value) : outcome (list value) :=
  if truthy results then
    match fuel with
    | O => None
    | S fuel' =>
        match (items <- py_getitem results "items" ;;
               page <- py_iter items ;;
               more <- py_getitem results "next" ;;
               Ok (acc ++ page, more)) with
        | Raise e => Some (Raise e)
        | Ok (acc', more) =>
            if truthy more then
              match next client results with
              | Raise e => Some (Raise e)
              | Ok results' => collect_pages fuel' client acc' results'
              end
            else Some (Ok acc')
        end
    end
  else Some (Ok acc).

(** [d[k] = v] on the insertion-ordered dict of the comprehension, whose
    keys are identifiers compared with [==]. *)
Fixpoint id_dict_set (k v : value) (d : list (value * value)) : list (value * value) :=
  match d with
  | [] => [(k, v)]
  | (k', v') :: d' =>
      if py_eq k' k then (k', v) :: d' else (k', v') :: id_dict_set k v d'
  end.

(** [{album['id']: album for album in albums}], built entry by entry. *)
Fixpoint by_album_id (albums : list value) (d : list (value * value))
    : result (list (value * value)) :=
  match albums with
  | [] => Ok d
  | album :: rest =>
      album_id <- py_getitem album "id" ;;
      if hashable album_id then by_album_id rest (id_dict_set album_id album d)
      else Raise (Exn TypeError ("unhashable type: '" +:+ type_name album_id +:+ "'"))
  end.

(** [','.join(album_types)] *)
Fixpoint join_comma (l : list string) : string :=
  match l with
  | [] => ""
  | [s] => s
  | s :: l' => s +:+ "," +:+ join_comma l'
  end.

Definition default_album_types : list string := ["album"; "single"].

Definition get_artist_albums (fuel : nat) (client : spotify_client) (artist_id : value)
    (album_types : list string) : outcome (list value) :=
  obind (Some (artist_albums client artist_id (join_comma album_types))) (fun results =>
  obind (collect_pages fuel client [] results) (fun albums =>
  Some (unique_albums <- by_album_id albums [] ;;
        Ok (map snd unique_albums)))).

Definition get_album_tracks (fuel : nat) (client : spotify_client) (album_id : value)
    : outcome (list value) :=
  obind (Some (album_tracks client album_id)) (fun results =>
  collect_pages fuel client [] results).

(** [{**track, 'spotify_album_id': album_id}] *)
Definition with_album_id (album_id track : value) : result value :=
  match track with
  | VDict d => Ok (VDict (dict_set "spotify_album_id" album_id d))
  | _ => Raise (Exn TypeError ("'" +:+ type_name track +:+ "' object is not a mapping"))
  end.

(** The [for album in albums] loop of [get_all_tracks_of_artist]; the
    [print] and the progress bar leave the result alone. *)
Fixpoint album_tracks_loop (fuel : nat) (client : spotify_client)
    (albums : list value) (all_tracks : list value) : outcome (list value) :=
  match albums with
  | [] => Some (Ok all_tracks)
  | album :: rest =>
      obind (Some (safe_get album (VStr "id") UNKNOWN_VALUE)) (fun album_id =>
      obind (get_album_tracks fuel client album_id) (fun tracks =>
      obind (Some (mapM (with_album_id album_id) tracks)) (fun tracks' =>
      album_tracks_loop fuel client rest (all_tracks ++ tracks'))))
  end.

Definition get_all_tracks_of_artist (fuel : nat) (client : spotify_client)
    (artist_id : value) : outcome (list value) :=
  obind (get_artist_albums fuel client artist_id default_album_types) (fun albums =>
  album_tracks_loop fuel client albums []).

(** The record appended for one track in [build_spotify_artist_tracks]. *)
Definition spotify_track_record (client : spotify_client) (spotify_artist_id : value)
    (track : value) : result value :=
  track_id <- safe_get track (VStr "id") UNKNOWN_VALUE ;;
  name <- safe_get track (VStr "name") UNKNOWN_VALUE ;;
  uri <- safe_get track (VStr "uri") UNKNOWN_VALUE ;;
  href <- safe_get track (VStr "href") UNKNOWN_VALUE ;;
  track_number <- safe_get track (VStr "track_number") UNKNOWN_VALUE ;;
  album_id <- safe_get track (VStr "spotify_album_id") UNKNOWN_VALUE ;;
  known_id <- safe_get track (VStr "id") UNKNOWN_VALUE ;;
  features <-
    (if negb (py_eq known_id UNKNOWN_VALUE) then
       feature_id <- safe_get track (VStr "id") UNKNOWN_VALUE ;;
       all_features <- audio_features client feature_id ;;
       py_index0 all_features
     else Ok (VDict [])) ;;
  Ok (VDict
        [("spotify_artist_id", spotify_artist_id);
         ("spotify_track_id", track_id);
         ("spotify_track_name", name);
         ("spotify_track_uri", uri);
         ("spotify_track_url", href);
         ("track_number", track_number);
         ("spotify_album_id", album_id);
         ("track_audio_features_spotify", features)]).

(** The records that [flat_nested_dictionary] mutates here are the ones
    just built, which nothing else refers to: their contents after the call
    are all that is left of them. *)
Definition build_spotify_artist_tracks (fuel : nat) (client : spotify_client)
    (spotify_artist_id : value) : outcome (list value) :=
  obind (get_all_tracks_of_artist fuel client spotify_artist_id) (fun tracks =>
  Some (spotify_artist_tracks <-
          mapM (spotify_track_record client spotify_artist_id) tracks ;;
        mapM (fun track =>
                flat_nested_contents track (VStr "track_audio_features_spotify"))
             spotify_artist_tracks)).

Definition fetch_spotify_artist_data (fuel : nat) (client : spotify_client)
    (artist_name : string) : outcome value :=
  obind (Some (spotify_artist_search client artist_name)) (fun search_result =>
  obind (Some (build_spotify_artist_data client search_result)) (fun spotify_artist_data =>
  obind (Some (py_getitem spotify_artist_data "spotify_artist_id")) (fun artist_id =>
  obind (build_spotify_artist_tracks fuel client artist_id) (fun spotify_artist_tracks =>
  Some (Ok (VDict [("artist_data", spotify_artist_data);
                   ("artist_tracks", VList spotify_artist_tracks)])))))).

End Spotify.

(** ** Insertion-ordered maps *)

(** An insertion-ordered map over keys with decidable equality: the shape
    of a dict comprehension [{key(x): x for x in items}]. *)
Module OrderedMap.
Section ordered_map.
Context {K V : Type} `{EqDecision K}.

Fixpoint oset (k : K) (v : V) (d : list (K * V)) : list (K * V) :=
  match d with
  | [] => [(k, v)]
  | (k', v') :: d' =>
      if decide (k' = k) then (k', v) :: d' else (k', v') :: oset k v d'
  end.

Definition obuild (input : list (K * V)) (d : list (K * V)) : list (K * V) :=
  fold_left (fun acc kv => oset (fst kv) (snd kv) acc) input d.

End ordered_map.
End OrderedMap.

(** ** [artist_data/client/genius_client.py] and
    [artist_data/client/spotify_client.py] *)

Module Clients.
Import Py.

(** The exception classes that the two client modules declare. *)
Inductive setup_class : Type :=
| GeniusClientError
| InvalidTokenError
| GeniusConnectionError
| SpotifyClientError
| InvalidCredentialsError
| SpotifyConnectionError.

Definition setup_class_eqb (a b : setup_class) : bool :=
  match a, b with
  | GeniusClientError, GeniusClientError
  | InvalidTokenError, InvalidTokenError
  | GeniusConnectionError, GeniusConnectionError
  | SpotifyClientError, SpotifyClientError
  | InvalidCredentialsError, InvalidCredentialsError
  | SpotifyConnectionError, SpotifyConnectionError => true
  | _, _ => false
  end.

(** [class InvalidTokenError(GeniusClientError)],
    [class GeniusConnectionError(GeniusClientError)], and the same two
    under [SpotifyClientError]. *)
Definition setup_subclass (c parent : setup_class) : bool :=
  setup_class_eqb c parent ||
  match c, parent with
  | InvalidTokenError, GeniusClientError => true
  | GeniusConnectionError, GeniusClientError => true
  | InvalidCredentialsError, SpotifyClientError => true
  | SpotifyConnectionError, SpotifyClientError => true
  | _, _ => false
  end.

(** An exception in flight while a client is set up: one that a library
    raised, which is some [Exception] and none of the classes above, or
    one of these classes with its message. *)
Inductive setup_exn : Type :=
| LibraryError (e : exn)
| SetupError (c : setup_class) (msg : string).

(** [str(e)] *)
Definition setup_str (e : setup_exn) : string :=
  match e with
  | LibraryError e' => exn_msg e'
  | SetupError _ msg => msg
  end.

Definition setup_isinstance (e : setup_exn) (c : setup_class) : bool :=
  match e with
  | LibraryError _ => false
  | SetupError c' _ => setup_subclass c' c
  end.

Inductive setup_result (A : Type) : Type :=
| Done (a : A)
| Fail (e : setup_exn).
Arguments Done {A} a.
Arguments Fail {A} e.

Definition setup_bind {A B} (r : setup_result A) (k : A -> setup_result B)
    : setup_result B :=
  match r with
  | Done a => k a
  | Fail e => Fail e
  end.

(** A call into a library: what it raises is a [LibraryError]. *)
Definition library {A} (r : result A) : setup_result A :=
  match r with
  | Ok a => Done a
  | Raise e => Fail (LibraryError e)
  end.

Definition setup_try {A} (body : setup_result A)
    (handler : setup_exn -> setup_result A) : setup_result A :=
  match body with
  | Done a => Done a
  | Fail e => handler e
  end.

(** [not v] for what [os.getenv] returns, a string or [None]. *)
Definition unset (v : option string) : bool :=
  match v with
  | None => true
  | Some s => String.eqb s ""
  end.

(** What [create_genius_client] uses of [lyricsgenius], on a client type
    [C]: the constructor [Genius(api_token, timeout=10, sleep_time=0.5,
    retries=5)] and the method [search_artist(name, max_songs=...,
    include_features=True)]. *)
Record genius_library (C : Type) : Type :=
  { Genius : string -> result C;
    search_artist_features : C -> string -> Z -> result (option Genius.artist_obj) }.
Arguments Genius {C} _ _.
Arguments search_artist_features {C} _ _ _ _.

Definition missing_token_message : string :=
  "Genius API token is missing or invalid. Please set the GENIUS_API_TOKEN environment variable.".

(** [create_genius_client()], on the environment read by [os.getenv].
    The redirection of [sys.stdout] around the test call and the [print]
    after it leave the result alone. *)
Definition create_genius_client {C} (getenv : string -> option string)
    (lib : genius_library C) : setup_result C :=
  setup_try
    (let api_token := getenv "GENIUS_API_TOKEN" in
     if unset api_token
     then Fail (SetupError InvalidTokenError missing_token_message)
     else
       setup_bind (library (Genius lib (default "" api_token))) (fun genius =>
       setup_bind
         (setup_try
            (setup_bind
               (library (search_artist_features lib genius
                           "ABCDEFGHIJKLMNOPKRSTUVWXYZ" 1))
               (fun _ => Done tt))
            (fun e => Fail (SetupError GeniusConnectionError
               ("Failed to connect to Genius API: " +:+ setup_str e))))
         (fun _ => Done genius)))
    (fun e =>
       if setup_isinstance e InvalidTokenError then Fail e
       else if setup_isinstance e GeniusConnectionError then Fail e
       else Fail (SetupError GeniusClientError
              ("An unexpected error occurred in the Genius client setup: "
               +:+ setup_str e))).

(** What [create_spotify_client] uses of [spotipy], on a credentials
    manager type [M] and a client type [C]:
    [SpotifyClientCredentials(client_id=..., client_secret=...)],
    [Spotify(client_credentials_manager=...)] and
    [search(q, type='artist', limit=...)]. *)
Record spotify_library (M C : Type) : Type :=
  { SpotifyClientCredentials : string -> string -> result M;
    Spotify : M -> result C;
    search_limit : C -> string -> Z -> result value }.
Arguments SpotifyClientCredentials {M C} _ _ _.
Arguments Spotify {M C} _ _.
Arguments search_limit {M C} _ _ _ _.

Definition missing_credentials_message : string :=
  "Spotify client credentials are missing or invalid. "
  +:+ "Please set the CLIENT_ID_SPOTIFY and CLIENT_SECRET_SPOTIFY environment variables.".

(** [create_spotify_client()] *)
Definition create_spotify_client {M C} (getenv : string -> option string)
    (lib : spotify_library M C) : setup_result C :=
  setup_try
    (let client_id := getenv "CLIENT_ID_SPOTIFY" in
     let client_secret := getenv "CLIENT_SECRET_SPOTIFY" in
     if unset client_id || unset client_secret
     then Fail (SetupError InvalidCredentialsError missing_credentials_message)
     else
       setup_bind
         (library (SpotifyClientCredentials lib (default "" client_id)
                     (default "" client_secret)))
         (fun client_credentials_manager =>
       setup_bind (library (Spotify lib client_credentials_manager)) (fun spotify =>
       setup_bind
         (setup_try
            (setup_bind
               (library (search_limit lib spotify "ABCDEFGHIJKLMNOPKRSTUVWXYZ" 1))
               (fun _ => Done tt))
            (fun e => Fail (SetupError SpotifyConnectionError
               ("Failed to connect to Spotify API: " +:+ setup_str e))))
         (fun _ => Done spotify))))
    (fun e =>
       if setup_isinstance e InvalidCredentialsError then Fail e
       else if setup_isinstance e SpotifyConnectionError then Fail e
       else Fail (SetupError SpotifyClientError
              ("An unexpected error occurred in the Spotify client setup: "
               +:+ setup_str e))).

End Clients.

(** * The vocabulary of the properties *)

(** ** The Safe Accessor *)

Module SafeAccessorSpec.
Import Py Utils.

(** What walking a key path over a nested mapping resolves to, step by
    step, when every key of the path is there: plain lookups, without
    sentinel or truth test. *)
Fixpoint resolve (v : value) (p : list value) : option value :=
  match p with
  | [] => Some v
  | k :: p' =>
      match v, k with
      | VDict d, VStr s =>
          match dict_lookup s d with
          | Some w => resolve w p'
          | None => None
          end
      | _, _ => None
      end
  end.

(** The call returns: it does not raise. *)
Definition returns {A} (r : result A) : Prop := exists a, r = Ok a.

End SafeAccessorSpec.

(** ** The Flattener *)

Module FlattenerSpec.
Import Py Utils.

(** What a lookup of [k'] finds once [r] has been flattened under [k]. *)
Definition flattened_lookup (r : dict) (k k' : string) : option value :=
  if String.eqb k k' then None
  else
    match dict_lookup k r with
    | Some (VDict nested) =>
        match dict_lookup k' nested with
        | Some v => Some v
        | None => dict_lookup k' r
        end
    | _ => dict_lookup k' r
    end.

(** The nested value under [k], when it is a dict, has distinct keys. *)
Definition nested_well_formed (r : dict) (k : string) : Prop :=
  forall nested, dict_lookup k r = Some (VDict nested) -> distinct_keys nested.

(** The contents after the call, in one expression. *)
Definition flattened (r : dict) (k : string) : dict :=
  dict_pop k match dict_lookup k r with
             | Some (VDict nested) => dict_update r nested
             | _ => r
             end.

End FlattenerSpec.

(** ** The Paginator *)

Module PaginatorSpec.
Import Py Utils Spotify.

(** What a hashable value is as a dict key: [True] and [1] are one key. *)
Inductive hkey : Type :=
| KNone
| KNum (z : Z)
| KStr (s : string).

#[global] Instance hkey_eq_dec : EqDecision hkey.
Proof. solve_decision. Defined.

Definition norm (v : value) : option hkey :=
  match v with
  | VNone => Some KNone
  | VBool b => Some (KNum (Z.b2z b))
  | VInt z => Some (KNum z)
  | VStr s => Some (KStr s)
  | VList _ | VDict _ => None
  end.

(** The identifier of an item, as a key. *)
Definition album_key (a : value) : option hkey :=
  match py_getitem a "id" with
  | Ok i => norm i
  | Raise _ => None
  end.

(** The item carries an identifier field that can key a dict. *)
Definition identified (a : value) : Prop :=
  exists i, py_getitem a "id" = Ok i /\ hashable i = true.

(** [a['id'] == b['id']] *)
Definition same_id (a b : value) : bool :=
  match py_getitem a "id", py_getitem b "id" with
  | Ok i, Ok j => py_eq i j
  | _, _ => false
  end.

(** Every identifier fetched is in the result. *)
Definition covers (all albums : list value) : Prop :=
  forall x, In x all -> exists y, In y albums /\ same_id x y = true.

(** No identifier is in the result twice. *)
Definition unique_ids (albums : list value) : Prop :=
  forall i j y y', i <> j ->
    nth_error albums i = Some y -> nth_error albums j = Some y' ->
    same_id y y' = false.

(** Each item of the result is the last one fetched under its identifier. *)
Definition last_wins (all albums : list value) : Prop :=
  forall y, In y albums ->
    exists l1 l2, all = l1 ++ y :: l2 /\ forall z, In z l2 -> same_id z y = false.

(** The provider serves [results] and then, through [next], the pages
    with the items [pages], page after page: every page but the last has a
    truthy [next] marker, and after the last one either the marker is
    falsy or [next] hands back a falsy value. *)
Fixpoint pages_from (client : spotify_client) (results : value)
    (pages : list (list value)) : Prop :=
  match pages with
  | [] => truthy results = false
  | items :: rest =>
      truthy results = true
      /\ py_getitem results "items" = Ok (VList items)
      /\ exists more, py_getitem results "next" = Ok more
           /\ if truthy more
              then exists results', next client results = Ok results'
                                    /\ pages_from client results' rest
              else rest = []
  end.

(** The dict of the comprehension and the items it is built from, both
    under normalised keys. *)
Definition keyed (d : list (value * value)) : list (option hkey * value) :=
  map (fun kv => (norm (fst kv), snd kv)) d.

Definition entries (albums : list value) : list (option hkey * value) :=
  map (fun a => (album_key a, a)) albums.

Definition hashable_keys (d : list (value * value)) : Prop :=
  Forall (fun kv => hashable (fst kv) = true) d.

(** Each item of the result comes from the last page that has its
    identifier. *)
Definition later_page_wins (pages : list (list value)) (albums : list value) : Prop :=
  forall y, In y albums ->
    exists ps1 p ps2, pages = ps1 ++ p :: ps2 /\ In y p
      /\ forall z, In z (concat ps2) -> same_id z y = false.

(** The scenario of the spec: three pages of two items, the identifier
    [a1] on the first page and again on the third. *)
Definition item (id name : string) : value :=
  VDict [("id", VStr id); ("name", VStr name)].

Definition page (items : list value) (more : value) : value :=
  VDict [("items", VList items); ("next", more)].

Definition page1 : value := page [item "a1" "first"; item "a2" "second"] (VStr "page2").
Definition page2 : value := page [item "a3" "third"; item "a4" "fourth"] (VStr "page3").
Definition page3 : value := page [item "a1" "again"; item "a5" "fifth"] VNone.

Definition three_pages : spotify_client :=
  {| search := fun _ => Ok VNone;
     artist_related_artists := fun _ => Ok VNone;
     artist_albums := fun _ _ => Ok page1;
     album_tracks := fun _ => Ok page1;
     next := fun results =>
       match py_getitem results "next" with
       | Ok (VStr "page2") => Ok page2
       | Ok (VStr "page3") => Ok page3
       | _ => Ok VNone
       end;
     audio_features := fun _ => Ok VNone |}.

Definition three_pages_items : list (list value) :=
  [[item "a1" "first"; item "a2" "second"];
   [item "a3" "third"; item "a4" "fourth"];
   [item "a1" "again"; item "a5" "fifth"]].

End PaginatorSpec.

(** ** The Genius record builders *)

Module GeniusBuildersSpec.
Import Py Utils Genius SafeAccessorSpec.

(** [d.get(k, dflt)] as a value. *)
Definition get_or (d : dict) (k : string) (dflt : value) : value :=
  match dict_lookup k d with
  | Some v => v
  | None => dflt
  end.

(** What [safe_extract] returns on a path of string keys. *)
Definition extracted (m : value) (p : list string) : value :=
  match extract_value m (map VStr p) UNKNOWN_VALUE with
  | Ok v => v
  | Raise _ => UNKNOWN_VALUE
  end.

(** The name a listed artist goes by in the record. *)
Definition artist_name (a : value) : value :=
  match a with
  | VDict d => get_or d "name" UNKNOWN_VALUE
  | _ => UNKNOWN_VALUE
  end.

(** The primary artists a track lists. *)
Definition listed_artists (d : dict) : list value :=
  match dict_lookup "primary_artists" d with
  | Some (VList l) => l
  | _ => []
  end.

(** The track lists its primary artists, if it does, as a list of
    mappings. *)
Definition wf_primary_artists (d : dict) : Prop :=
  match dict_lookup "primary_artists" d with
  | None => True
  | Some (VList l) => Forall (fun a => is_dict a = true) l
  | Some _ => False
  end.

(** A track the builder can walk: a mapping, the empty one included. *)
Definition wf_track (t : value) : Prop :=
  exists d, t = VDict d /\ wf_primary_artists d.

(** The names kept in the [primary_artists] field. *)
Definition other_names (d : dict) : list value :=
  List.filter
    (fun name => negb (py_eq name (extracted (VDict d) ["primary_artist"; "name"])))
    (map artist_name (listed_artists d)).

(** The record that the track builder assembles from the track [d], as a
    plain expression ([build_track_nonempty] below). *)
Definition track_record (d : dict) : dict :=
  [("genius_track_id", get_or d "id" UNKNOWN_VALUE);
   ("genius_title", get_or d "title" UNKNOWN_VALUE);
   ("genius_release_date", get_or d "release_date" UNKNOWN_VALUE);
   ("genius_album", get_or d "album" UNKNOWN_VALUE);
   ("genius_track_api_path", get_or d "api_path" UNKNOWN_VALUE);
   ("genius_pageviews", extracted (VDict d) ["stats"; "pageviews"]);
   ("genius_track_url", get_or d "url" UNKNOWN_VALUE);
   ("genius_track_image_url", get_or d "song_art_image_url" UNKNOWN_VALUE);
   ("genius_track_language", get_or d "language" UNKNOWN_VALUE);
   ("genius_track_description", extracted (VDict d) ["description"; "plain"]);
   ("genius_lyrics", get_or d "lyrics" UNKNOWN_VALUE);
   ("genius_lyrics_is_complete", get_or d "lyrics_state" UNKNOWN_VALUE);
   ("primary_artist", extracted (VDict d) ["primary_artist"; "name"]);
   ("primary_artists", VList (other_names d));
   ("genius_featured_artists", get_or d "featured_artists" (VList []))].

(** What the track builder makes of a well-formed track. *)
Definition built_track (t : value) : value :=
  match t with
  | VDict [] => VNone
  | VDict d => VDict (track_record d)
  | _ => VNone
  end.

(** The songs an artist response embeds. *)
Definition listed_songs (d : dict) : list value :=
  match dict_lookup "songs" d with
  | Some (VList l) => l
  | _ => []
  end.

(** The response embeds its songs, if it does, as a list of well-formed
    tracks. *)
Definition wf_songs (d : dict) : Prop :=
  match dict_lookup "songs" d with
  | None => True
  | Some (VList l) => Forall wf_track l
  | Some _ => False
  end.

(** The fields that the artist builder assembles from the response [d],
    and the whole record with the tracks ([build_artist_ok] below). *)
Definition artist_fields (d : dict) : dict :=
  [("genius_artist_id", get_or d "id" UNKNOWN_VALUE);
   ("genius_artist_name", get_or d "name" UNKNOWN_VALUE);
   ("genius_alternate_names", get_or d "alternate_names" (VList []));
   ("genius_artist_api_path", get_or d "api_path" UNKNOWN_VALUE);
   ("genius_artist_url", get_or d "url" UNKNOWN_VALUE);
   ("genius_artist_image_url", get_or d "image_url" UNKNOWN_VALUE);
   ("genius_artist_description", extracted (VDict d) ["description"; "plain"]);
   ("genius_twitter_name", get_or d "twitter_name" UNKNOWN_VALUE);
   ("genius_facebook_name", get_or d "facebook_name" UNKNOWN_VALUE);
   ("genius_instagram_name", get_or d "instagram_name" UNKNOWN_VALUE);
   ("genius_is_verified", get_or d "is_verified" UNKNOWN_VALUE)].

Definition artist_record (d : dict) : dict :=
  artist_fields d ++ [("genius_tracks", VList (map built_track (listed_songs d)))].

(** The client found the artist asked for: a truthy object whose name is
    the queried one. *)
Definition found (client : genius_client) (artist_name : string) (n_tracks : Z)
    (d : dict) : Prop :=
  exists a, search_artist client artist_name n_tracks = Ok (Some a)
            /\ artist_truthy a = true
            /\ to_dict a = VDict d
            /\ dict_lookup "name" d = Some (VStr artist_name).

(** The end-to-end scenario of the spec. *)
Definition example_track : dict :=
  [("id", VInt 10); ("title", VStr "A");
   ("primary_artist", VDict [("name", VStr "Test")]);
   ("primary_artists", VList [VDict [("name", VStr "Test")];
                              VDict [("name", VStr "Feat")]])].

Definition example_artist : dict :=
  [("id", VInt 1); ("name", VStr "Test"); ("songs", VList [VDict example_track])].

Definition example_client : genius_client :=
  {| search_artist := fun _ _ =>
       Ok (Some {| artist_truthy := true; to_dict := VDict example_artist |}) |}.

Definition empty_song_client : genius_client :=
  {| search_artist := fun _ _ =>
       Ok (Some {| artist_truthy := true;
                   to_dict := VDict [("name", VStr "Test");
                                     ("songs", VList [VDict []; VDict example_track])] |}) |}.

(** The fields read with [safe_get]: output key, source key, default. *)
Definition track_get_fields : list (string * string * value) :=
  [("genius_track_id", "id", UNKNOWN_VALUE);
   ("genius_title", "title", UNKNOWN_VALUE);
   ("genius_release_date", "release_date", UNKNOWN_VALUE);
   ("genius_album", "album", UNKNOWN_VALUE);
   ("genius_track_api_path", "api_path", UNKNOWN_VALUE);
   ("genius_track_url", "url", UNKNOWN_VALUE);
   ("genius_track_image_url", "song_art_image_url", UNKNOWN_VALUE);
   ("genius_track_language", "language", UNKNOWN_VALUE);
   ("genius_lyrics", "lyrics", UNKNOWN_VALUE);
   ("genius_lyrics_is_complete", "lyrics_state", UNKNOWN_VALUE);
   ("primary_artists", "primary_artists", VList []);
   ("genius_featured_artists", "featured_artists", VList [])].

(** The fields read with [safe_extract]: output key, source path. *)
Definition track_path_fields : list (string * list string) :=
  [("genius_pageviews", ["stats"; "pageviews"]);
   ("genius_track_description", ["description"; "plain"]);
   ("primary_artist", ["primary_artist"; "name"])].

Definition artist_get_fields : list (string * string * value) :=
  [("genius_artist_id", "id", UNKNOWN_VALUE);
   ("genius_artist_name", "name", UNKNOWN_VALUE);
   ("genius_alternate_names", "alternate_names", VList []);
   ("genius_artist_api_path", "api_path", UNKNOWN_VALUE);
   ("genius_artist_url", "url", UNKNOWN_VALUE);
   ("genius_artist_image_url", "image_url", UNKNOWN_VALUE);
   ("genius_twitter_name", "twitter_name", UNKNOWN_VALUE);
   ("genius_facebook_name", "facebook_name", UNKNOWN_VALUE);
   ("genius_instagram_name", "instagram_name", UNKNOWN_VALUE);
   ("genius_is_verified", "is_verified", UNKNOWN_VALUE);
   ("genius_tracks", "songs", VList [])].

Definition artist_path_fields : list (string * list string) :=
  [("genius_artist_description", ["description"; "plain"])].

(** Every field whose source is missing from [d] holds its default in
    [rec]. *)
Definition missing_defaulted (d rec : dict)
    (get_fields : list (string * string * value))
    (path_fields : list (string * list string)) : Prop :=
  (forall out src dflt, In (out, src, dflt) get_fields ->
     dict_lookup src d = None -> dict_lookup out rec = Some dflt)
  /\ (forall out path, In (out, path) path_fields ->
        resolve (VDict d) (map VStr path) = None ->
        dict_lookup out rec = Some UNKNOWN_VALUE).

End GeniusBuildersSpec.

(** ** Errors at the orchestrators *)

Module OrchestratorsSpec.
Import Py Utils Genius Spotify.

(** The search finds nothing usable: no artist, a falsy artist object, or
    an artist whose name is not the queried one. *)
Definition not_found (client : genius_client) (artist_name : string) (n_tracks : Z)
    : Prop :=
  search_artist client artist_name n_tracks = Ok None
  \/ exists a, search_artist client artist_name n_tracks = Ok (Some a)
       /\ (artist_truthy a = false
           \/ exists name, safe_get (to_dict a) (VStr "name") UNKNOWN_VALUE = Ok name
                /\ py_eq name (VStr artist_name) = false).

(** What the [except] clause of [genius_artist_search] raises for [e]. *)
Definition fetching_error (artist_name : string) (e : exn) : exn :=
  Exn GeniusAPIError
    ("Error fetching artist '" +:+ artist_name +:+ "' from Genius API: " +:+ exn_msg e).

(** Clients for the scenarios: an artist of another name, no artist, a
    failing call, a song that is no mapping. *)
Definition wrong_name_client : genius_client :=
  {| search_artist := fun _ _ =>
       Ok (Some {| artist_truthy := true;
                   to_dict := VDict [("id", VInt 1); ("name", VStr "Other")] |}) |}.

Definition no_artist_client : genius_client :=
  {| search_artist := fun _ _ => Ok None |}.


Definition bad_songs_client : genius_client :=
  {| search_artist := fun _ _ =>
       Ok (Some {| artist_truthy := true;
                   to_dict := VDict [("name", VStr "Test");
                                     ("songs", VList [VStr "x"])] |}) |}.





(** A catalogue search that comes back without any artist. *)
Definition nobody_client : spotify_client :=
  {| search := fun _ => Ok (VDict [("artists", VDict [("items", VList [])])]);
     artist_related_artists := fun _ => Ok (VDict [("artists", VList [])]);
     artist_albums := fun _ _ => Ok VNone;
     album_tracks := fun _ => Ok VNone;
     next := fun _ => Ok VNone;
     audio_features := fun _ => Ok (VList [VNone]) |}.

End OrchestratorsSpec.

(** ** More of the Safe Accessor and the Flattener *)

Module UtilsSpec.
Import Py Utils SafeAccessorSpec.

(** A sentinel that only itself equals: a string, as ['UNKNOWN'] is, or
    [None]. *)
Definition exact_sentinel (U : value) : Prop :=
  match U with
  | VNone | VStr _ => True
  | _ => False
  end.

(** A plain nested lookup, with a missing or falsy result replaced. *)
Definition lookup_or (m : value) (p : list string) (U : value) : value :=
  match resolve m (map VStr p) with
  | Some v => if truthy v then v else U
  | None => U
  end.

End UtilsSpec.

(** ** Setting up the clients *)

Module ClientsSpec.
Import Py Clients.

(** A library in which every call fails. *)
Definition broken_genius : genius_library unit :=
  {| Genius := fun _ => Raise (Exn ClientError "no network");
     search_artist_features := fun _ _ _ => Raise (Exn ClientError "no network") |}.

(** A library that builds a client whose test call is refused. *)
Definition refusing_genius : genius_library unit :=
  {| Genius := fun _ => Ok tt;
     search_artist_features := fun _ _ _ => Raise (Exn ClientError "401 Unauthorized") |}.

Definition broken_spotify : spotify_library unit unit :=
  {| SpotifyClientCredentials := fun _ _ => Raise (Exn ClientError "no network");
     Spotify := fun _ => Raise (Exn ClientError "no network");
     search_limit := fun _ _ _ => Raise (Exn ClientError "no network") |}.

Definition refusing_spotify : spotify_library unit unit :=
  {| SpotifyClientCredentials := fun _ _ => Ok tt;
     Spotify := fun _ => Ok tt;
     search_limit := fun _ _ _ => Raise (Exn ClientError "401 Unauthorized") |}.

(** An environment with the Genius token only, one with both Spotify
    credentials, one with the client id only. *)
Definition token_env (name : string) : option string :=
  if String.eqb name "GENIUS_API_TOKEN" then Some "t0k3n" else None.

Definition credentials_env (name : string) : option string :=
  if String.eqb name "CLIENT_ID_SPOTIFY" then Some "id"
  else if String.eqb name "CLIENT_SECRET_SPOTIFY" then Some "secret"
  else None.

Definition id_only_env (name : string) : option string :=
  if String.eqb name "CLIENT_ID_SPOTIFY" then Some "id" else None.

End ClientsSpec.

(** ** The shape of the Genius records *)

Module GeniusShapeSpec.
Import Py Utils Genius.

(** The keys of a track record, in the order of the dict display. *)
Definition track_keys : list string :=
  ["genius_track_id"; "genius_title"; "genius_release_date"; "genius_album";
   "genius_track_api_path"; "genius_pageviews"; "genius_track_url";
   "genius_track_image_url"; "genius_track_language"; "genius_track_description";
   "genius_lyrics"; "genius_lyrics_is_complete"; "primary_artist";
   "primary_artists"; "genius_featured_artists"].

(** The keys of an artist record, in the order of the dict display. *)
Definition artist_keys : list string :=
  ["genius_artist_id"; "genius_artist_name"; "genius_alternate_names";
   "genius_artist_api_path"; "genius_artist_url"; "genius_artist_image_url";
   "genius_artist_description"; "genius_twitter_name"; "genius_facebook_name";
   "genius_instagram_name"; "genius_is_verified"; "genius_tracks"].

(** The message starts with the prefix. *)
Definition prefixed (prefix msg : string) : Prop :=
  exists rest, msg = prefix +:+ rest.

(** An artist that the provider returns without a name. *)
Definition nameless_client : genius_client :=
  {| search_artist := fun _ _ =>
       Ok (Some {| artist_truthy := true; to_dict := VDict [("id", VInt 3)] |}) |}.

End GeniusShapeSpec.

(** ** The Spotify builders *)

Module SpotifyBuildersSpec.
Import Py Utils Spotify SafeAccessorSpec UtilsSpec GeniusBuildersSpec.

(** The record that the artist builder assembles from the search result
    [d], the first image [image] and the related artists [related]. *)
Definition spotify_artist_record (d image : dict) (related : list value) : dict :=
  [("spotify_artist_id", get_or d "id" UNKNOWN_VALUE);
   ("spotify_artist_name", get_or d "name" UNKNOWN_VALUE);
   ("spotify_artist_uri_path", get_or d "uri" UNKNOWN_VALUE);
   ("spotify_artist_url", get_or d "href" UNKNOWN_VALUE);
   ("spotify_artist_image_url", get_or image "url" UNKNOWN_VALUE);
   ("spotify_artist_n_followers",
    lookup_or (VDict d) ["followers"; "total"] UNKNOWN_VALUE);
   ("spotify_popularity", get_or d "popularity" UNKNOWN_VALUE);
   ("spotify_artist_genres", get_or d "genres" UNKNOWN_VALUE);
   ("spotify_related_artists", VList (map artist_name related))].

(** The seven fields of a track record that come from the track. *)
Definition spotify_track_fields (spotify_artist_id : value) (d : dict) : dict :=
  [("spotify_artist_id", spotify_artist_id);
   ("spotify_track_id", get_or d "id" UNKNOWN_VALUE);
   ("spotify_track_name", get_or d "name" UNKNOWN_VALUE);
   ("spotify_track_uri", get_or d "uri" UNKNOWN_VALUE);
   ("spotify_track_url", get_or d "href" UNKNOWN_VALUE);
   ("track_number", get_or d "track_number" UNKNOWN_VALUE);
   ("spotify_album_id", get_or d "spotify_album_id" UNKNOWN_VALUE)].

Definition spotify_track_keys : list string :=
  ["spotify_artist_id"; "spotify_track_id"; "spotify_track_name";
   "spotify_track_uri"; "spotify_track_url"; "track_number"; "spotify_album_id"].

(** The track has no identifier to ask audio features for: none at all,
    or the very string of the sentinel. *)
Definition without_id (t : value) : Prop :=
  exists d, t = VDict d /\ get_or d "id" UNKNOWN_VALUE = UNKNOWN_VALUE.

(** [{**track, 'spotify_album_id': album_id}] on a mapping. *)
Definition annotated (album_id : value) (track : value) : value :=
  match track with
  | VDict d => VDict (dict_set "spotify_album_id" album_id d)
  | _ => track
  end.

(** The album is a mapping whose tracks the provider serves as
    [tracks], all of them mappings. *)
Definition album_serves (fuel : nat) (client : spotify_client)
    (album : value) (tracks : list value) : Prop :=
  exists d, album = VDict d
    /\ get_album_tracks fuel client (get_or d "id" UNKNOWN_VALUE) = Some (Ok tracks)
    /\ Forall (fun t => is_dict t = true) tracks.

(** The tracks of each album, each with the identifier of its album. *)
Fixpoint annotated_tracks (albums : list value) (track_lists : list (list value))
    : list value :=
  match albums, track_lists with
  | album :: albums', tracks :: track_lists' =>
      map (annotated (match album with
                      | VDict d => get_or d "id" UNKNOWN_VALUE
                      | _ => UNKNOWN_VALUE
                      end)) tracks
      ++ annotated_tracks albums' track_lists'
  | _, _ => []
  end.

(** The record of a track for which no audio features are asked. *)
Definition track_without_features (spotify_artist_id : value) (t : value) : value :=
  match t with
  | VDict d => VDict (spotify_track_fields spotify_artist_id d)
  | _ => t
  end.

(** A finished track record: a mapping with the seven fields of the
    track and without the nested audio features. *)
Definition flat_track_record (r : value) : Prop :=
  exists d, r = VDict d
    /\ dict_lookup "track_audio_features_spotify" d = None
    /\ forall k, In k spotify_track_keys -> dict_lookup k d <> None.

(** The track carries the identifier of one of the albums. *)
Definition carries_album_id (albums : list value) (t : value) : Prop :=
  exists d album album_id,
    t = VDict d /\ In album albums
    /\ safe_get album (VStr "id") UNKNOWN_VALUE = Ok album_id
    /\ dict_lookup "spotify_album_id" d = Some album_id.

(** The character U+00E9 (e with an acute accent), as its two UTF-8
    bytes, and a catalogue whose [artists.items] is a [str] that starts
    with it. *)
Definition e_acute : string :=
  String (Ascii.ascii_of_nat 195) (String (Ascii.ascii_of_nat 169) EmptyString).

Definition str_items_catalogue : spotify_client :=
  {| search := fun _ =>
       Ok (VDict [("artists", VDict [("items", VStr (e_acute +:+ "a"))])]);
     artist_related_artists := fun _ => Ok (VDict [("artists", VList [])]);
     artist_albums := fun _ _ => Ok VNone;
     album_tracks := fun _ => Ok VNone;
     next := fun _ => Ok VNone;
     audio_features := fun _ => Ok (VList [VNone]) |}.

(** A catalogue with one artist, one album and two tracks, the second
    without identifier. *)
Definition small_catalogue : spotify_client :=
  {| search := fun _ =>
       Ok (VDict [("artists", VDict [("items",
             VList [VDict [("id", VStr "ar1"); ("name", VStr "X");
                           ("images", VList [VDict [("url", VStr "http://img")]])]])])]);
     artist_related_artists := fun _ =>
       Ok (VDict [("artists", VList [VDict [("name", VStr "Y")]; VDict []])]);
     artist_albums := fun _ _ =>
       Ok (VDict [("items", VList [VDict [("id", VStr "al1")]]); ("next", VNone)]);
     album_tracks := fun _ =>
       Ok (VDict [("items", VList [VDict [("id", VStr "t1"); ("name", VStr "one")];
                                   VDict [("name", VStr "two")]]);
                  ("next", VNone)]);
     next := fun _ => Ok VNone;
     audio_features := fun _ => Ok (VList [VDict [("tempo", VInt 120)]]) |}.

(** The same catalogue, the tracks without identifier and the audio
    features out of order. *)
Definition anonymous_tracks : spotify_client :=
  {| search := search small_catalogue;
     artist_related_artists := artist_related_artists small_catalogue;
     artist_albums := artist_albums small_catalogue;
     album_tracks := fun _ =>
       Ok (VDict [("items", VList [VDict [("name", VStr "one")];
                                   VDict [("name", VStr "two")]]);
                  ("next", VNone)]);
     next := fun _ => Ok VNone;
     audio_features := fun _ => Raise (Exn ClientError "503") |}.

End SpotifyBuildersSpec.

(** ** More of the Paginator *)

Module OrderingSpec.
Section first_occurrences.
Context {K : Type} `{EqDecision K}.

(** The elements of a list in the order of their first occurrence. *)
Fixpoint first_occurrences (l : list K) : list K :=
  match l with
  | [] => []
  | k :: l' =>
      k :: List.filter (fun k' => negb (bool_decide (k' = k))) (first_occurrences l')
  end.

(** [k] is none of the elements of [l]. *)
Definition fresh (l : list K) (k : K) : bool :=
  forallb (fun k' => negb (bool_decide (k = k'))) l.

End first_occurrences.
End OrderingSpec.

Module TraversalSpec.
Import Py Utils Spotify.

(** The provider serves [results] and then, through [next], the pages
    with the items [pages], every one of them with a truthy [next]
    marker, and after them the response [last]. *)
Fixpoint pages_until (client : spotify_client) (results : value)
    (pages : list (list value)) (last : value) : Prop :=
  match pages with
  | [] => results = last
  | items :: rest =>
      truthy results = true
      /\ py_getitem results "items" = Ok (VList items)
      /\ exists more, py_getitem results "next" = Ok more
           /\ truthy more = true
           /\ exists results', next client results = Ok results'
                /\ pages_until client results' rest last
  end.

(** A provider whose second page comes without [next] marker. *)
Definition unmarked_second_page : spotify_client :=
  {| search := fun _ => Ok VNone;
     artist_related_artists := fun _ => Ok VNone;
     artist_albums := fun _ _ =>
       Ok (VDict [("items", VList [VDict [("id", VStr "a1")]]); ("next", VStr "more")]);
     album_tracks := fun _ =>
       Ok (VDict [("items", VList [VDict [("id", VStr "t1")]]); ("next", VStr "more")]);
     next := fun _ => Ok (VDict [("items", VList [VDict [("id", VStr "a2")]])]);
     audio_features := fun _ => Ok VNone |}.

(** A provider that fails when asked for the second page. *)
Definition failing_second_page : spotify_client :=
  {| search := fun _ => Ok VNone;
     artist_related_artists := fun _ => Ok VNone;
     artist_albums := fun _ _ =>
       Ok (VDict [("items", VList [VDict [("id", VStr "a1")]]); ("next", VStr "more")]);
     album_tracks := fun _ =>
       Ok (VDict [("items", VList [VDict [("id", VStr "t1")]]); ("next", VStr "more")]);
     next := fun _ => Raise (Exn ClientError "429 Too Many Requests");
     audio_features := fun _ => Ok VNone |}.

End TraversalSpec.

(** * Properties *)

(** ** The Safe Accessor *)

Module SafeAccessor.
Import Py Utils SafeAccessorSpec.

Lemma py_eq_hashable_refl (u : value) : hashable u = true -> py_eq u u = true.
Proof.
  destruct u as [| b | z | s | l | d]; simpl; try discriminate; intros _.
  - reflexivity.
  - destruct b; reflexivity.
  - apply Z.eqb_refl.
  - apply String.eqb_refl.
Qed.

Lemma py_eq_dict_hashable (d : dict) (u : value) :
  hashable u = true -> py_eq (VDict d) u = false.
Proof. destruct u; simpl; try discriminate; reflexivity. Qed.

Lemma resolve_step_dict (w v k : value) (p : list value) :
  resolve w (k :: p) = Some v -> exists d, w = VDict d.
Proof. destruct w; simpl; try discriminate. eauto. Qed.

(** The loop follows [resolve] until it reaches the resolved value, where
    it either goes on or has stopped on a value equal to the sentinel. *)
Lemma extract_loop_resolve (U : value) (p1 p2 : list value) :
  hashable U = true ->
  forall m v, resolve m p1 = Some v ->
    extract_loop m (p1 ++ p2) U = extract_loop v p2 U
    \/ (extract_loop m (p1 ++ p2) U = Ok v /\ py_eq v U = true).
Proof.
  intros HU. induction p1 as [| k p1 IH]; intros m v Hres.
  - simpl in Hres. injection Hres as ->. left. reflexivity.
  - simpl in Hres.
    destruct m as [| | | | | d]; try discriminate.
    destruct k as [| | | s | |]; try discriminate.
    destruct (dict_lookup s d) as [w |] eqn:Hlk; try discriminate.
    change ((VStr s :: p1) ++ p2) with (VStr s :: (p1 ++ p2)).
    cbn [extract_loop safe_get hashable]. rewrite Hlk. cbn [bind].
    destruct p1 as [| k' p1'].
    + simpl in Hres. injection Hres as ->. simpl app.
      destruct (py_eq v U) eqn:Heq; [right | left]; auto.
    + destruct (resolve_step_dict _ _ _ _ Hres) as [d' ->].
      rewrite py_eq_dict_hashable by assumption.
      apply IH. exact Hres.
Qed.

(** From a falsy value the loop cannot get to anything but that value,
    the sentinel, or the [AttributeError] of a lookup in a non-dict. *)
Lemma extract_loop_falsy (U v : value) (p : list value) :
  hashable U = true -> truthy v = false ->
  (v = VDict [] -> forallb hashable p = true) ->
  extract_loop v p U = Ok v \/ extract_loop v p U = Ok U
  \/ exists msg, extract_loop v p U = Raise (Exn AttributeError msg).
Proof.
  intros HU Hv Hkeys. destruct p as [| k p]; [left; reflexivity |].
  destruct v as [| b | z | s | l | d]; simpl;
    try (right; right; eexists; reflexivity).
  destruct d as [| kv d]; [| discriminate].
  simpl in Hkeys. specialize (Hkeys eq_refl).
  apply andb_true_iff in Hkeys as [Hk _]. rewrite Hk.
  right; left.
  destruct k; simpl; rewrite py_eq_hashable_refl by assumption; reflexivity.
Qed.

Lemma py_eq_str (v : value) (s : string) : py_eq v (VStr s) = true -> v = VStr s.
Proof.
  destruct v; simpl; try discriminate.
  intros H. apply String.eqb_eq in H as ->. reflexivity.
Qed.

(** A path that resolves to a truthy value yields that value. *)
Lemma extract_value_present (U m v : value) (p : list value) :
  hashable U = true -> resolve m p = Some v -> truthy v = true ->
  extract_value m p U = Ok v.
Proof.
  intros HU Hres Hv. unfold extract_value.
  destruct (extract_loop_resolve U p [] HU m v Hres) as [H | [H _]];
    rewrite app_nil_r in H; rewrite H; simpl; rewrite Hv; reflexivity.
Qed.

(** A path that does not resolve yields the sentinel. *)
Lemma extract_loop_absent (s : string) (p : list string) :
  forall m, resolve m (map VStr p) = None ->
    extract_loop m (map VStr p) (VStr s) = Ok (VStr s)
    \/ exists msg, extract_loop m (map VStr p) (VStr s) = Raise (Exn AttributeError msg).
Proof.
  induction p as [| k p IH]; intros m Hres; [discriminate |].
  simpl in Hres. cbn [map extract_loop].
  destruct m as [| | | | | d]; try (right; eexists; reflexivity).
  cbn [safe_get hashable].
  destruct (dict_lookup k d) as [w |]; cbn [bind].
  - destruct (py_eq w (VStr s)) eqn:Heq.
    + apply py_eq_str in Heq as ->. left. reflexivity.
    + apply IH. exact Hres.
  - cbn [py_eq]. rewrite String.eqb_refl. left. reflexivity.
Qed.

Lemma extract_value_absent (s : string) (p : list string) (m : value) :
  resolve m (map VStr p) = None ->
  extract_value m (map VStr p) (VStr s) = Ok (VStr s).
Proof.
  intros Hres. unfold extract_value.
  destruct (extract_loop_absent s p m Hres) as [-> | [msg ->]].
  - destruct (truthy (VStr s)); reflexivity.
  - reflexivity.
Qed.

(** On string keys the extraction always returns. *)
Lemma extract_value_returns (U m : value) (p : list string) :
  exists v, extract_value m (map VStr p) U = Ok v.
Proof.
  assert (Hloop : forall m,
    (exists v, extract_loop m (map VStr p) U = Ok v)
    \/ exists msg, extract_loop m (map VStr p) U = Raise (Exn AttributeError msg)).
  { induction p as [| k p IH]; intros m'; [left; eexists; reflexivity |].
    cbn [map extract_loop].
    destruct m' as [| | | | | d]; try (right; eexists; reflexivity).
    cbn [safe_get hashable].
    destruct (dict_lookup k d) as [w |]; cbn [bind].
    - destruct (py_eq w U); [left; eexists; reflexivity | apply IH].
    - destruct (py_eq U U); [left; eexists; reflexivity | apply IH]. }
  unfold extract_value. destruct (Hloop m) as [[v ->] | [msg ->]]; eexists; reflexivity.
Qed.

(** C1.  Whenever walking the key path resolves to a falsy value, at its
    last step or at a step before, [extract_value] and its wrapper
    [safe_extract] return the sentinel and not that value.  The sentinel is
    any hashable value, as ['UNKNOWN'] and [None] are; a path may go on
    after the falsy value with any keys, which only have to be hashable
    when the falsy value is the empty dict. *)
Theorem extract_value_falsy_is_unknown (U m v : value) (p1 p2 : list value) :
  hashable U = true ->
  resolve m p1 = Some v ->
  truthy v = false ->
  (v = VDict [] -> forallb hashable p2 = true) ->
  extract_value m (p1 ++ p2) U = Ok U /\ safe_extract m (p1 ++ p2) U = Ok U.
Proof.
  intros HU Hres Hv Hkeys.
  assert (H : extract_value m (p1 ++ p2) U = Ok U).
  { unfold extract_value.
    destruct (extract_loop_resolve U p1 p2 HU m v Hres) as [-> | [-> _]].
    - destruct (extract_loop_falsy U v p2 HU Hv Hkeys) as [-> | [-> | [msg ->]]].
      + rewrite Hv. reflexivity.
      + destruct (truthy U); reflexivity.
      + reflexivity.
    - rewrite Hv. reflexivity. }
  split; [exact H | exact H].
Qed.

(** A zero at the end of the path, and a zero in the middle of it. *)
Lemma extract_value_falsy_is_unknown_witness :
  (extract_value (VDict [("a", VDict [("b", VInt 0)])]) ([VStr "a"; VStr "b"] ++ [])
     UNKNOWN_VALUE = Ok UNKNOWN_VALUE
   /\ safe_extract (VDict [("a", VDict [("b", VInt 0)])]) ([VStr "a"; VStr "b"] ++ [])
        UNKNOWN_VALUE = Ok UNKNOWN_VALUE)
  /\ (extract_value (VDict [("a", VInt 0)]) ([VStr "a"] ++ [VStr "b"])
        UNKNOWN_VALUE = Ok UNKNOWN_VALUE
      /\ safe_extract (VDict [("a", VInt 0)]) ([VStr "a"] ++ [VStr "b"])
           UNKNOWN_VALUE = Ok UNKNOWN_VALUE).
Proof.
  split.
  - apply (extract_value_falsy_is_unknown UNKNOWN_VALUE _ (VInt 0));
      [reflexivity | reflexivity | reflexivity | discriminate].
  - apply (extract_value_falsy_is_unknown UNKNOWN_VALUE _ (VInt 0));
      [reflexivity | reflexivity | reflexivity | discriminate].
Defined.

(** With hashable keys the loop can only fail on a lookup in a non-dict. *)
Lemma extract_loop_hashable (U : value) (p : list value) :
  forallb hashable p = true ->
  forall v, returns (extract_loop v p U)
            \/ exists msg, extract_loop v p U = Raise (Exn AttributeError msg).
Proof.
  induction p as [| k p IH]; intros Hp v.
  - left. eexists. reflexivity.
  - simpl in Hp. apply andb_true_iff in Hp as [Hk Hp].
    cbn [extract_loop].
    destruct v as [| b | z | s | l | d];
      try (right; eexists; reflexivity).
    cbn [safe_get]. rewrite Hk.
    assert (Hstep : forall w,
      returns (value' <- Ok w ;;
               (if py_eq value' U then Ok value' else extract_loop value' p U))
      \/ exists msg,
           (value' <- Ok w ;;
            (if py_eq value' U then Ok value' else extract_loop value' p U))
           = Raise (Exn AttributeError msg)).
    { intros w. cbn [bind]. destruct (py_eq w U).
      - left. eexists. reflexivity.
      - apply IH. exact Hp. }
    destruct k as [| b | z | s | l | d']; try discriminate; try apply Hstep.
    destruct (dict_lookup s d); apply Hstep.
Qed.

(** C8, as the code has it.  On a mapping and a hashable key (every
    string, the declared key type, is one) [safe_get] returns the stored
    value or else the supplied default; on any data, mapping or not, and
    any path of hashable keys [extract_value] returns a value.  Neither
    raises. *)
Theorem safe_accessors_never_raise_hashable :
  (forall (d : dict) (key U : value), hashable key = true ->
     safe_get (VDict d) key U
     = Ok (match key with
           | VStr k => default U (dict_lookup k d)
           | _ => U
           end))
  /\ (forall (data U : value) (key_path : list value),
        forallb hashable key_path = true ->
        returns (extract_value data key_path U)
        /\ returns (safe_extract data key_path U)).
Proof.
  split.
  - intros d key U Hk. unfold safe_get. rewrite Hk.
    destruct key; try reflexivity.
    destruct (dict_lookup s d); reflexivity.
  - intros data U key_path Hp.
    assert (H : returns (extract_value data key_path U)).
    { unfold extract_value.
      destruct (extract_loop_hashable U key_path Hp data) as [[r ->] | [msg ->]].
      - eexists. reflexivity.
      - eexists. reflexivity. }
    split; exact H.
Qed.

Lemma safe_accessors_never_raise_hashable_witness :
  safe_get (VDict [("id", VInt 7)]) (VStr "name") UNKNOWN_VALUE = Ok UNKNOWN_VALUE
  /\ returns (extract_value (VList []) [VStr "stats"; VInt 3] UNKNOWN_VALUE).
Proof.
  destruct safe_accessors_never_raise_hashable as [Hget Hextract].
  split.
  - apply (Hget [("id", VInt 7)] (VStr "name") UNKNOWN_VALUE). reflexivity.
  - apply (Hextract (VList []) UNKNOWN_VALUE [VStr "stats"; VInt 3]). reflexivity.
Defined.

(** C8 as stated fails: a list is a key type, and [{}.get([], ...)] is a
    [TypeError] that nothing in [safe_get] or [extract_value] catches. *)
Lemma safe_accessors_raise_on_unhashable_key :
  ~ (forall (d : dict) (key U : value) (key_path : list value),
       returns (safe_get (VDict d) key U)
       /\ returns (extract_value (VDict d) key_path U)).
Proof.
  intros H.
  destruct (H [] (VList []) UNKNOWN_VALUE [VList []]) as [[a Ha] _].
  discriminate Ha.
Qed.

End SafeAccessor.

(** ** The Flattener *)

Module Flattener.
Import Py Utils FlattenerSpec.

Lemma dict_lookup_set (k k' : string) (v : value) (d : dict) :
  dict_lookup k' (dict_set k v d)
  = if String.eqb k k' then Some v else dict_lookup k' d.
Proof.
  induction d as [| [a b] d IH]; simpl.
  - destruct (String.eqb k k'); reflexivity.
  - destruct (String.eqb a k) eqn:Hak; simpl.
    + apply String.eqb_eq in Hak as ->.
      destruct (String.eqb k k'); reflexivity.
    + rewrite IH. destruct (String.eqb a k') eqn:Hak'; [| reflexivity].
      apply String.eqb_eq in Hak' as ->. rewrite String.eqb_sym, Hak. reflexivity.
Qed.

Lemma dict_lookup_absent (k : string) (d : dict) :
  ~ In k (map fst d) -> dict_lookup k d = None.
Proof.
  induction d as [| [a b] d IH]; simpl; intros Hin; [reflexivity |].
  destruct (String.eqb a k) eqn:Hak.
  - apply String.eqb_eq in Hak. tauto.
  - apply IH. tauto.
Qed.

(** [update] gives the entries of [other] the last word. *)
Lemma dict_lookup_update (k' : string) (other : dict) :
  distinct_keys other ->
  forall d,
    dict_lookup k' (dict_update d other)
    = match dict_lookup k' other with
      | Some v => Some v
      | None => dict_lookup k' d
      end.
Proof.
  unfold distinct_keys, dict_update.
  induction other as [| [a b] other IH]; simpl; intros Hnd d; [reflexivity |].
  inversion Hnd as [| ? ? Hnotin Hnd']; subst.
  rewrite IH by assumption. rewrite dict_lookup_set.
  destruct (String.eqb a k') eqn:Hak; [| reflexivity].
  apply String.eqb_eq in Hak as ->.
  rewrite dict_lookup_absent by assumption. reflexivity.
Qed.

Lemma dict_lookup_pop (k k' : string) (d : dict) :
  dict_lookup k' (dict_pop k d)
  = if String.eqb k k' then None else dict_lookup k' d.
Proof.
  unfold dict_pop. induction d as [| [a b] d IH]; simpl.
  - destruct (String.eqb k k'); reflexivity.
  - destruct (String.eqb a k) eqn:Hak; simpl.
    + rewrite IH. apply String.eqb_eq in Hak as ->.
      destruct (String.eqb k k'); reflexivity.
    + rewrite IH. destruct (String.eqb a k') eqn:Hak'; [| reflexivity].
      apply String.eqb_eq in Hak' as ->. rewrite String.eqb_sym, Hak. reflexivity.
Qed.

Lemma dict_pop_absent (k : string) (d : dict) :
  dict_lookup k d = None -> dict_pop k d = d.
Proof.
  unfold dict_pop. induction d as [| [a b] d IH]; simpl; [reflexivity |].
  destruct (String.eqb a k); [discriminate |]. simpl. intros H. rewrite IH by exact H.
  reflexivity.
Qed.

Lemma flat_nested_contents_dict (r : dict) (k : string) :
  flat_nested_contents (VDict r) (VStr k) = Ok (VDict (flattened r k)).
Proof.
  unfold flat_nested_contents, flattened, safe_get. simpl.
  destruct (dict_lookup k r) as [[| | | | | nested] |]; reflexivity.
Qed.

Lemma flattened_lookup_spec (r : dict) (k k' : string) :
  nested_well_formed r k ->
  dict_lookup k' (flattened r k) = flattened_lookup r k k'.
Proof.
  intros Hwf. unfold flattened, flattened_lookup. rewrite dict_lookup_pop.
  destruct (String.eqb k k'); [reflexivity |].
  destruct (dict_lookup k r) as [[| | | | | nested] |] eqn:Hn; try reflexivity.
  apply dict_lookup_update. apply (Hwf nested Hn).
Qed.

(** C4.  The call returns the reference it was given, and the record
    behind it is mutated: the entries of [r[k]], when that is a mapping,
    are merged over those of [r], and [k] is gone in every case; with [k]
    absent the record is what it was. *)
Theorem flat_nested_dictionary_spec (h : heap) (d : loc) (r : dict) (k : string) :
  h !! d = Some (VDict r) ->
  nested_well_formed r k ->
  exists r',
    flat_nested_dictionary d (VStr k) h = Ok (d, <[d := VDict r']> h)
    /\ dict_lookup k r' = None
    /\ (forall k', dict_lookup k' r' = flattened_lookup r k k')
    /\ (dict_lookup k r = None -> r' = r).
Proof.
  intros Hd Hwf. exists (flattened r k). split; [| split; [| split]].
  - unfold flat_nested_dictionary, deref. rewrite Hd. simpl.
    rewrite flat_nested_contents_dict. reflexivity.
  - rewrite flattened_lookup_spec by assumption.
    unfold flattened_lookup. rewrite String.eqb_refl. reflexivity.
  - intros k'. apply flattened_lookup_spec. assumption.
  - intros Habs. unfold flattened. rewrite Habs. apply dict_pop_absent. exact Habs.
Qed.

Example flatten_nested :
  flat_nested_contents (VDict [("x", VDict [("a", VInt 1)]); ("b", VInt 2)]) (VStr "x")
  = Ok (VDict [("b", VInt 2); ("a", VInt 1)]).
Proof. reflexivity. Qed.

Example flatten_overwrites :
  flat_nested_contents (VDict [("a", VInt 0); ("x", VDict [("a", VInt 1)])]) (VStr "x")
  = Ok (VDict [("a", VInt 1)]).
Proof. reflexivity. Qed.

Example flatten_absent :
  flat_nested_contents (VDict [("b", VInt 2)]) (VStr "x") = Ok (VDict [("b", VInt 2)]).
Proof. reflexivity. Qed.

Example flatten_not_a_mapping :
  flat_nested_contents (VDict [("x", VInt 7); ("b", VInt 2)]) (VStr "x")
  = Ok (VDict [("b", VInt 2)]).
Proof. reflexivity. Qed.

(** [{"x": {"a": 1}, "b": 2}] flattened under ["x"]. *)
Lemma flat_nested_dictionary_spec_witness :
  exists r',
    flat_nested_dictionary 0%nat (VStr "x")
      {[ 0%nat := VDict [("x", VDict [("a", VInt 1)]); ("b", VInt 2)] ]}
    = Ok (0%nat, <[0%nat := VDict r']>
                   {[ 0%nat := VDict [("x", VDict [("a", VInt 1)]); ("b", VInt 2)] ]})
    /\ dict_lookup "x" r' = None
    /\ (forall k', dict_lookup k' r'
                   = flattened_lookup [("x", VDict [("a", VInt 1)]); ("b", VInt 2)] "x" k')
    /\ (dict_lookup "x" [("x", VDict [("a", VInt 1)]); ("b", VInt 2)] = None ->
        r' = [("x", VDict [("a", VInt 1)]); ("b", VInt 2)]).
Proof.
  apply (flat_nested_dictionary_spec
           {[ 0%nat := VDict [("x", VDict [("a", VInt 1)]); ("b", VInt 2)] ]}
           0%nat [("x", VDict [("a", VInt 1)]); ("b", VInt 2)] "x").
  - apply lookup_singleton_eq.
  - intros nested Hn. injection Hn as <-.
    unfold distinct_keys. simpl. constructor; [intros [] | constructor].
Defined.

End Flattener.

(** ** The Paginator *)

Module OrderedMapFacts.
Import OrderedMap.
Section ordered_map_facts.
Context {K V : Type} `{EqDecision K}.

Lemma oset_keys (k : K) (v : V) (d : list (K * V)) :
  (In k (map fst d) /\ map fst (oset k v d) = map fst d)
  \/ (~ In k (map fst d) /\ map fst (oset k v d) = map fst d ++ [k]).
Proof.
  induction d as [| [k' v'] d IH]; simpl.
  - right. split; [intros [] | reflexivity].
  - destruct (decide (k' = k)) as [-> | Hne]; simpl.
    + left. split; [left; reflexivity | reflexivity].
    + destruct IH as [[Hin ->] | [Hnin ->]].
      * left. split; [right; exact Hin | reflexivity].
      * right. split; [| reflexivity]. intros [H | H]; [apply Hne; exact H | tauto].
Qed.

Lemma oset_In_key (k k' : K) (v : V) (d : list (K * V)) :
  In k' (map fst (oset k v d)) <-> k' = k \/ In k' (map fst d).
Proof.
  destruct (oset_keys k v d) as [[Hin ->] | [Hnin ->]].
  - split; [tauto | intros [-> | H]; assumption].
  - rewrite in_app_iff. simpl. split; intros H; intuition congruence.
Qed.

Lemma oset_NoDup (k : K) (v : V) (d : list (K * V)) :
  List.NoDup (map fst d) -> List.NoDup (map fst (oset k v d)).
Proof.
  intros Hnd.
  destruct (oset_keys k v d) as [[Hin ->] | [Hnin ->]]; [exact Hnd |].
  apply List.NoDup_app; [exact Hnd | constructor; [intros [] | constructor] |].
  intros x Hx [<- | []]. tauto.
Qed.

Lemma oset_In (k k' : K) (v v' : V) (d : list (K * V)) :
  List.NoDup (map fst d) ->
  In (k', v') (oset k v d) ->
  (k' = k /\ v' = v) \/ (k' <> k /\ In (k', v') d).
Proof.
  induction d as [| [k0 v0] d IH]; simpl; intros Hnd Hin.
  - destruct Hin as [Heq | []]. injection Heq as <- <-. left. split; reflexivity.
  - inversion Hnd as [| ? ? Hnotin Hnd']; subst.
    destruct (decide (k0 = k)) as [-> | Hne].
    + destruct Hin as [Heq | Hin].
      * injection Heq as <- <-. left. split; reflexivity.
      * right. split; [| right; exact Hin].
        intros ->. apply Hnotin. apply (in_map fst) in Hin. exact Hin.
    + destruct Hin as [Heq | Hin].
      * injection Heq as <- <-. right. split; [exact Hne | left; reflexivity].
      * destruct (IH Hnd' Hin) as [H | [H1 H2]]; [left; exact H |].
        right. split; [exact H1 | right; exact H2].
Qed.

Lemma obuild_snoc (input : list (K * V)) (kv : K * V) (d : list (K * V)) :
  obuild (input ++ [kv]) d = oset (fst kv) (snd kv) (obuild input d).
Proof. unfold obuild. rewrite fold_left_app. reflexivity. Qed.

(** Keys stay distinct. *)
Lemma obuild_NoDup (input : list (K * V)) :
  List.NoDup (map fst (obuild input [])).
Proof.
  induction input as [| kv input IH] using rev_ind.
  - constructor.
  - rewrite obuild_snoc. apply oset_NoDup. exact IH.
Qed.

(** Every key of the input is a key of the map. *)
Lemma obuild_covers (input : list (K * V)) (k : K) :
  In k (map fst input) -> In k (map fst (obuild input [])).
Proof.
  induction input as [| kv input IH] using rev_ind; [intros [] |].
  rewrite map_app, in_app_iff, obuild_snoc, oset_In_key. simpl.
  intros [H | [H | []]]; [right; apply IH; exact H | left; symmetry; exact H].
Qed.

(** Every entry of the map is the last entry of the input with its key. *)
Lemma obuild_last (input : list (K * V)) (k : K) (v : V) :
  In (k, v) (obuild input []) ->
  exists l1 l2, input = l1 ++ (k, v) :: l2 /\ ~ In k (map fst l2).
Proof.
  revert k v. induction input as [| [k0 v0] input IH] using rev_ind;
    intros k v Hin; [destruct Hin |].
  rewrite obuild_snoc in Hin. simpl in Hin.
  apply oset_In in Hin; [| apply obuild_NoDup].
  destruct Hin as [[-> ->] | [Hne Hin]].
  - exists input, []. split; [reflexivity | intros []].
  - destruct (IH k v Hin) as (l1 & l2 & -> & Hl2).
    exists l1, (l2 ++ [(k0, v0)]). split.
    + rewrite <- app_assoc. reflexivity.
    + rewrite map_app, in_app_iff. simpl. intros [H | [H | []]]; [tauto |].
      apply Hne. symmetry. exact H.
Qed.

End ordered_map_facts.
End OrderedMapFacts.

Module Paginator.
Import Py Utils Spotify OrderedMap OrderedMapFacts PaginatorSpec.

Lemma py_eq_norm (a b : value) :
  hashable a = true -> hashable b = true ->
  py_eq a b = bool_decide (norm a = norm b).
Proof.
  destruct a as [| x | x | x | |], b as [| y | y | y | |];
    simpl; try discriminate; intros _ _; try reflexivity.
  - destruct x, y; reflexivity.
  - destruct (Z.eqb_spec (Z.b2z x) y) as [<- | Hne].
    + rewrite bool_decide_eq_true_2; reflexivity.
    + rewrite bool_decide_eq_false_2; [reflexivity | congruence].
  - destruct (Z.eqb_spec x (Z.b2z y)) as [-> | Hne].
    + rewrite bool_decide_eq_true_2; reflexivity.
    + rewrite bool_decide_eq_false_2; [reflexivity | congruence].
  - destruct (Z.eqb_spec x y) as [-> | Hne].
    + rewrite bool_decide_eq_true_2; reflexivity.
    + rewrite bool_decide_eq_false_2; [reflexivity | congruence].
  - destruct (String.eqb_spec x y) as [-> | Hne].
    + rewrite bool_decide_eq_true_2; reflexivity.
    + rewrite bool_decide_eq_false_2; [reflexivity | congruence].
Qed.

Lemma same_id_key (a b : value) :
  identified a -> identified b ->
  same_id a b = bool_decide (album_key a = album_key b).
Proof.
  intros (i & Hi & Hhi) (j & Hj & Hhj). unfold same_id, album_key.
  rewrite Hi, Hj. apply py_eq_norm; assumption.
Qed.

Lemma id_dict_set_keyed (i a : value) (d : list (value * value)) :
  hashable i = true -> hashable_keys d ->
  keyed (id_dict_set i a d) = oset (norm i) a (keyed d)
  /\ hashable_keys (id_dict_set i a d).
Proof.
  intros Hi. induction d as [| [k v] d IH]; intros Hd.
  - split; [reflexivity |]. constructor; [exact Hi | constructor].
  - inversion Hd as [| ? ? Hk Hd']; subst. simpl in Hk.
    destruct (IH Hd') as [IH1 IH2]. simpl.
    rewrite (py_eq_norm k i Hk Hi).
    destruct (decide (norm k = norm i)) as [Heq | Hne].
    + rewrite bool_decide_eq_true_2 by exact Heq. simpl.
      split; [reflexivity |]. constructor; [exact Hk | exact Hd'].
    + rewrite bool_decide_eq_false_2 by exact Hne. simpl.
      rewrite IH1. split; [reflexivity |]. constructor; [exact Hk | exact IH2].
Qed.

(** The comprehension builds the ordered map of the items by key. *)
Lemma by_album_id_obuild (albums : list value) :
  Forall identified albums ->
  forall d, hashable_keys d ->
    exists d', by_album_id albums d = Ok d'
               /\ keyed d' = obuild (entries albums) (keyed d).
Proof.
  induction albums as [| a albums IH]; intros Hall d Hd.
  - exists d. split; reflexivity.
  - inversion Hall as [| ? ? (i & Hi & Hhi) Hall']; subst.
    destruct (id_dict_set_keyed i a d Hhi Hd) as [Hk Hh].
    destruct (IH Hall' _ Hh) as (d' & Hrun & Hkeyed).
    exists d'. split.
    + simpl. rewrite Hi. simpl. rewrite Hhi. exact Hrun.
    + rewrite Hkeyed, Hk. unfold entries, album_key at 2. simpl. rewrite Hi.
      reflexivity.
Qed.

Lemma entries_In (all : list value) (k : option hkey) (y : value) :
  In (k, y) (entries all) -> k = album_key y /\ In y all.
Proof.
  unfold entries. rewrite in_map_iff. intros (a & Heq & Hin).
  injection Heq as <- <-. split; [reflexivity | exact Hin].
Qed.

Lemma keyed_snd (d : list (value * value)) : map snd (keyed d) = map snd d.
Proof. unfold keyed. rewrite map_map. reflexivity. Qed.

(** The three properties of the deduplicated list. *)
Lemma by_album_id_dedup (all : list value) :
  Forall identified all ->
  exists d, by_album_id all [] = Ok d
    /\ covers all (map snd d)
    /\ unique_ids (map snd d)
    /\ last_wins all (map snd d).
Proof.
  intros Hall.
  destruct (by_album_id_obuild all Hall [] (List.Forall_nil _)) as (d & Hrun & Hkeyed).
  simpl in Hkeyed. exists d. split; [exact Hrun |].
  rewrite <- keyed_snd, Hkeyed.
  assert (Hid : forall y, In y all -> identified y).
  { apply (proj1 (List.Forall_forall identified all) Hall). }
  assert (Hentry : forall k y, In (k, y) (obuild (entries all) []) ->
            k = album_key y /\ In y all
            /\ exists l1 l2, all = l1 ++ y :: l2
                 /\ ~ In (album_key y) (map album_key l2)).
  { intros k y Hin. destruct (obuild_last _ _ _ Hin) as (e1 & e2 & Hsplit & Hlast).
    assert (Hin' : In (k, y) (entries all)).
    { rewrite Hsplit. apply in_elt. }
    destruct (entries_In _ _ _ Hin') as [-> Hy].
    split; [reflexivity |]. split; [exact Hy |].
    unfold entries in Hsplit.
    apply map_eq_app in Hsplit as (l1 & l2' & -> & _ & Hl2').
    apply map_eq_cons in Hl2' as (y' & l2 & -> & Hy' & Hl2).
    injection Hy' as _ ->.
    exists l1, l2. split; [reflexivity |].
    subst e2. rewrite map_map in Hlast. exact Hlast. }
  split; [| split].
  - intros x Hx.
    assert (Hk : In (album_key x) (map fst (obuild (entries all) []))).
    { apply obuild_covers. unfold entries. rewrite map_map. simpl.
      apply in_map. exact Hx. }
    apply in_map_iff in Hk as ([k y] & Hfst & Hin). simpl in Hfst. subst k.
    destruct (Hentry _ _ Hin) as (Hkey & Hy & _).
    exists y. split; [apply (in_map snd) in Hin; exact Hin |].
    rewrite same_id_key by auto. apply bool_decide_eq_true_2. exact Hkey.
  - intros i j y y' Hij Hi Hj.
    rewrite nth_error_map in Hi, Hj.
    destruct (nth_error (obuild (entries all) []) i) as [[k e] |] eqn:Ei;
      [| discriminate].
    destruct (nth_error (obuild (entries all) []) j) as [[k' e'] |] eqn:Ej;
      [| discriminate].
    simpl in Hi, Hj. injection Hi as ->. injection Hj as ->.
    destruct (Hentry _ _ (nth_error_In _ _ Ei)) as (-> & Hy & _).
    destruct (Hentry _ _ (nth_error_In _ _ Ej)) as (-> & Hy' & _).
    rewrite same_id_key by auto. apply bool_decide_eq_false_2. intros Heq.
    apply Hij.
    pose proof (obuild_NoDup (entries all)) as Hnd.
    rewrite List.NoDup_nth_error in Hnd. apply Hnd.
    + rewrite length_map. apply nth_error_Some. rewrite Ei. discriminate.
    + rewrite !nth_error_map, Ei, Ej. simpl. rewrite Heq. reflexivity.
  - intros y Hy. apply in_map_iff in Hy as ([k e] & Hsnd & Hin).
    simpl in Hsnd. subst e.
    destruct (Hentry _ _ Hin) as (_ & Hyall & l1 & l2 & Hsplit & Hlast).
    exists l1, l2. split; [exact Hsplit |].
    intros z Hz. rewrite same_id_key.
    + apply bool_decide_eq_false_2. intros Heq. apply Hlast.
      rewrite <- Heq. apply in_map. exact Hz.
    + apply Hid. rewrite Hsplit. apply in_or_app. right. right. exact Hz.
    + apply Hid. exact Hyall.
Qed.

(** The loop accumulates the items of the pages served, in order. *)
Lemma collect_pages_spec (client : spotify_client) (pages : list (list value)) :
  forall results acc fuel,
    pages_from client results pages ->
    (length pages <= fuel)%nat ->
    collect_pages fuel client acc results = Some (Ok (acc ++ concat pages)).
Proof.
  induction pages as [| items rest IH]; intros results acc fuel Hp Hfuel.
  - simpl in Hp. rewrite app_nil_r.
    destruct fuel; simpl; rewrite Hp; reflexivity.
  - destruct Hp as (Htrue & Hitems & more & Hmore & Hnext).
    destruct fuel as [| fuel]; [simpl in Hfuel; lia |].
    simpl in Hfuel. cbn [collect_pages]. rewrite Htrue, Hitems, Hmore.
    cbn [bind py_iter]. destruct (truthy more).
    + destruct Hnext as (results' & Hn & Hrest). rewrite Hn.
      rewrite (IH results' (acc ++ items) fuel Hrest) by lia.
      simpl. rewrite app_assoc. reflexivity.
    + subst rest. simpl. rewrite app_nil_r. reflexivity.
Qed.

Lemma get_album_tracks_all_pages (client : spotify_client) (album_id results : value)
    (pages : list (list value)) (fuel : nat) :
  album_tracks client album_id = Ok results ->
  pages_from client results pages ->
  (length pages <= fuel)%nat ->
  get_album_tracks fuel client album_id = Some (Ok (concat pages)).
Proof.
  intros Hfirst Hp Hfuel. unfold get_album_tracks. rewrite Hfirst. simpl.
  apply (collect_pages_spec client pages results [] fuel Hp Hfuel).
Qed.

Lemma get_artist_albums_dedup (client : spotify_client) (artist_id results : value)
    (album_types : list string) (pages : list (list value)) (fuel : nat) :
  artist_albums client artist_id (join_comma album_types) = Ok results ->
  pages_from client results pages ->
  Forall identified (concat pages) ->
  (length pages <= fuel)%nat ->
  exists albums,
    get_artist_albums fuel client artist_id album_types = Some (Ok albums)
    /\ covers (concat pages) albums
    /\ unique_ids albums
    /\ last_wins (concat pages) albums.
Proof.
  intros Hfirst Hp Hall Hfuel.
  destruct (by_album_id_dedup (concat pages) Hall) as (d & Hrun & Hprops).
  exists (map snd d). split; [| exact Hprops].
  unfold get_artist_albums. rewrite Hfirst. cbn [obind].
  rewrite (collect_pages_spec client pages results [] fuel Hp Hfuel).
  cbn [obind app]. rewrite Hrun. reflexivity.
Qed.

Lemma app_split_at (p c l1 l2 : list value) (y : value) :
  p ++ c = l1 ++ y :: l2 ->
  (exists p2, l2 = p2 ++ c /\ p = l1 ++ y :: p2)
  \/ (exists l1', l1 = p ++ l1' /\ c = l1' ++ y :: l2).
Proof.
  revert l1. induction p as [| x p IH]; intros l1 Heq.
  - right. exists l1. split; [reflexivity | exact Heq].
  - destruct l1 as [| x' l1]; simpl in Heq; injection Heq as -> Heq.
    + left. exists p. split; [symmetry; exact Heq | reflexivity].
    + destruct (IH l1 Heq) as [(p2 & -> & ->) | (l1' & -> & ->)].
      * left. exists p2. split; reflexivity.
      * right. exists l1'. split; reflexivity.
Qed.

(** Where an item sits among the pages. *)
Lemma concat_split (pages : list (list value)) :
  forall l1 y l2, concat pages = l1 ++ y :: l2 ->
    exists ps1 p ps2, pages = ps1 ++ p :: ps2 /\ In y p
      /\ forall z, In z (concat ps2) -> In z l2.
Proof.
  induction pages as [| p pages IH]; intros l1 y l2 Heq.
  - destruct l1; discriminate.
  - simpl in Heq.
    destruct (app_split_at p (concat pages) l1 l2 y Heq)
      as [(p2 & -> & Hp) | (l1' & -> & Hrest)].
    + exists [], p, pages. split; [reflexivity |]. split.
      * rewrite Hp. apply in_elt.
      * intros z Hz. apply in_or_app. right. exact Hz.
    + destruct (IH _ _ _ Hrest) as (ps1 & q & ps2 & -> & Hq & Hlater).
      exists (p :: ps1), q, ps2. split; [reflexivity |]. split; assumption.
Qed.

Lemma last_wins_later_page (pages : list (list value)) (albums : list value) :
  last_wins (concat pages) albums -> later_page_wins pages albums.
Proof.
  intros Hlast y Hy. destruct (Hlast y Hy) as (l1 & l2 & Hsplit & Hl2).
  destruct (concat_split pages l1 y l2 Hsplit) as (ps1 & p & ps2 & Hp & Hin & Hlater).
  exists ps1, p, ps2. split; [exact Hp |]. split; [exact Hin |].
  intros z Hz. apply Hl2. apply Hlater. exact Hz.
Qed.

Lemma three_pages_served : pages_from three_pages page1 three_pages_items.
Proof.
  simpl. repeat split.
  eexists. split; [reflexivity |]. simpl.
  eexists. split; [reflexivity |]. repeat split.
  eexists. split; [reflexivity |]. simpl.
  eexists. split; [reflexivity |]. repeat split.
  eexists. split; reflexivity.
Qed.

Lemma three_pages_identified : Forall identified (concat three_pages_items).
Proof. repeat constructor; eexists; split; reflexivity. Qed.

Example three_pages_albums :
  get_artist_albums 3 three_pages (VStr "artist") default_album_types
  = Some (Ok [item "a1" "again"; item "a2" "second"; item "a3" "third";
              item "a4" "fourth"; item "a5" "fifth"]).
Proof. vm_compute. reflexivity. Qed.

Example three_pages_tracks :
  get_album_tracks 3 three_pages (VStr "album")
  = Some (Ok [item "a1" "first"; item "a2" "second"; item "a3" "third";
              item "a4" "fourth"; item "a1" "again"; item "a5" "fifth"]).
Proof. vm_compute. reflexivity. Qed.

(** C5.  When the album pages are served one after the other and every
    item carries an identifier, [get_artist_albums] returns a list with
    every identifier fetched, none of them twice, and each item is the one
    of the last page that has its identifier. *)
Theorem get_artist_albums_later_page_wins (client : spotify_client)
    (artist_id results : value) (album_types : list string)
    (pages : list (list value)) (fuel : nat) :
  artist_albums client artist_id (join_comma album_types) = Ok results ->
  pages_from client results pages ->
  Forall identified (concat pages) ->
  (length pages <= fuel)%nat ->
  exists albums,
    get_artist_albums fuel client artist_id album_types = Some (Ok albums)
    /\ covers (concat pages) albums
    /\ unique_ids albums
    /\ last_wins (concat pages) albums
    /\ later_page_wins pages albums.
Proof.
  intros Hfirst Hp Hall Hfuel.
  destruct (get_artist_albums_dedup client artist_id results album_types pages fuel
              Hfirst Hp Hall Hfuel) as (albums & Hrun & Hc & Hu & Hl).
  exists albums. repeat split; try assumption.
  apply last_wins_later_page. exact Hl.
Qed.

Lemma get_artist_albums_later_page_wins_witness :
  exists albums,
    get_artist_albums 3 three_pages (VStr "artist") default_album_types
    = Some (Ok albums)
    /\ covers (concat three_pages_items) albums
    /\ unique_ids albums
    /\ last_wins (concat three_pages_items) albums
    /\ later_page_wins three_pages_items albums.
Proof.
  apply (get_artist_albums_later_page_wins three_pages (VStr "artist") page1
           default_album_types three_pages_items 3).
  - reflexivity.
  - exact three_pages_served.
  - exact three_pages_identified.
  - simpl. lia.
Defined.

(** C3, as the code has it.  The artist-albums traversal deduplicates the
    accumulated items by identifier, last write winning, and returns them
    as a list; the album-tracks traversal returns the accumulated items of
    all pages as they came, duplicates included. *)
Theorem paginated_fetches (client : spotify_client) (pages : list (list value))
    (fuel : nat) :
  (length pages <= fuel)%nat ->
  (forall artist_id album_types results,
     artist_albums client artist_id (join_comma album_types) = Ok results ->
     pages_from client results pages ->
     Forall identified (concat pages) ->
     exists albums,
       get_artist_albums fuel client artist_id album_types = Some (Ok albums)
       /\ covers (concat pages) albums
       /\ unique_ids albums
       /\ last_wins (concat pages) albums)
  /\ (forall album_id results,
        album_tracks client album_id = Ok results ->
        pages_from client results pages ->
        get_album_tracks fuel client album_id = Some (Ok (concat pages))).
Proof.
  intros Hfuel. split.
  - intros artist_id album_types results Hfirst Hp Hall.
    apply (get_artist_albums_dedup client artist_id results album_types pages fuel);
      assumption.
  - intros album_id results Hfirst Hp.
    apply (get_album_tracks_all_pages client album_id results pages fuel); assumption.
Qed.

Lemma paginated_fetches_witness :
  (exists albums,
     get_artist_albums 3 three_pages (VStr "artist") default_album_types
     = Some (Ok albums)
     /\ covers (concat three_pages_items) albums
     /\ unique_ids albums
     /\ last_wins (concat three_pages_items) albums)
  /\ get_album_tracks 3 three_pages (VStr "album")
     = Some (Ok (concat three_pages_items)).
Proof.
  assert (Hfuel : (length three_pages_items <= 3)%nat) by (simpl; lia).
  destruct (paginated_fetches three_pages three_pages_items 3 Hfuel) as [Ha Ht].
  split.
  - apply (Ha (VStr "artist") default_album_types page1);
      [reflexivity | exact three_pages_served | exact three_pages_identified].
  - apply (Ht (VStr "album") page1); [reflexivity | exact three_pages_served].
Defined.

(** C3 as stated fails for the album-tracks traversal: the identifier
    [a1] of the first and the third page is in its result twice. *)
Lemma get_album_tracks_keeps_duplicates :
  exists tracks,
    get_album_tracks 3 three_pages (VStr "album") = Some (Ok tracks)
    /\ ~ unique_ids tracks.
Proof.
  eexists. split; [vm_compute; reflexivity |].
  intros Huniq.
  assert (H : same_id (item "a1" "first") (item "a1" "again") = false).
  { apply (Huniq 0%nat 4%nat); [lia | reflexivity | reflexivity]. }
  discriminate H.
Qed.

End Paginator.

(** ** The Genius record builders *)

Module GeniusBuilders.
Import Py Utils Genius SafeAccessorSpec SafeAccessor GeniusBuildersSpec.

Lemma safe_get_dict (d : dict) (k : string) (U : value) :
  safe_get (VDict d) (VStr k) U = Ok (get_or d k U).
Proof. unfold safe_get, get_or. simpl. destruct (dict_lookup k d); reflexivity. Qed.

Lemma safe_extract_extracted (m : value) (p : list string) :
  safe_extract m (map VStr p) UNKNOWN_VALUE = Ok (extracted m p).
Proof.
  unfold safe_extract, extracted.
  destruct (extract_value_returns UNKNOWN_VALUE m p) as [v ->]. reflexivity.
Qed.

Lemma other_primary_artists_filter (l : list value) (primary_artist : value) :
  Forall (fun a => is_dict a = true) l ->
  other_primary_artists l primary_artist
  = Ok (List.filter (fun name => negb (py_eq name primary_artist)) (map artist_name l)).
Proof.
  induction l as [| a l IH]; intros Hl; [reflexivity |].
  inversion Hl as [| ? ? Ha Hl']; subst.
  destruct a as [| | | | | d]; try discriminate.
  cbn [other_primary_artists map List.filter artist_name].
  rewrite safe_get_dict. cbn [bind]. rewrite (IH Hl').
  destruct (py_eq (get_or d "name" UNKNOWN_VALUE) primary_artist); reflexivity.
Qed.

Lemma py_eq_empty_dict (d : dict) : d <> [] -> py_eq (VDict d) (VDict []) = false.
Proof. destruct d; [congruence | reflexivity]. Qed.

Lemma build_track_nonempty (d : dict) :
  d <> [] -> wf_primary_artists d ->
  build_genius_artist_track (VDict d) = Ok (VDict (track_record d)).
Proof.
  intros Hd Hwf. unfold build_genius_artist_track.
  rewrite (py_eq_empty_dict d Hd).
  change [VStr "primary_artist"; VStr "name"] with (map VStr ["primary_artist"; "name"]).
  change [VStr "stats"; VStr "pageviews"] with (map VStr ["stats"; "pageviews"]).
  change [VStr "description"; VStr "plain"] with (map VStr ["description"; "plain"]).
  rewrite !safe_extract_extracted, !safe_get_dict. cbn [bind try_except].
  assert (Hothers :
    (artists <- py_iter (get_or d "primary_artists" (VList [])) ;;
     other_primary_artists artists (extracted (VDict d) ["primary_artist"; "name"]))
    = Ok (other_names d)).
  { unfold other_names, listed_artists, get_or. unfold wf_primary_artists in Hwf.
    destruct (dict_lookup "primary_artists" d) as [[| | | | l |] |];
      try contradiction; simpl.
    - apply other_primary_artists_filter. exact Hwf.
    - reflexivity. }
  unfold track_record.
  destruct (py_iter (get_or d "primary_artists" (VList []))) as [artists | e];
    cbn [bind] in Hothers |- *; [| discriminate].
  rewrite Hothers. reflexivity.
Qed.

Lemma build_track_ok (t : value) :
  wf_track t -> build_genius_artist_track t = Ok (built_track t).
Proof.
  intros (d & -> & Hwf). destruct d as [| kv d]; [reflexivity |].
  apply build_track_nonempty; [discriminate | exact Hwf].
Qed.

Lemma build_tracks_ok (songs : list value) :
  Forall wf_track songs ->
  mapM build_genius_artist_track songs = Ok (map built_track songs).
Proof.
  induction songs as [| t songs IH]; intros Hs; [reflexivity |].
  inversion Hs as [| ? ? Ht Hs']; subst. simpl.
  rewrite (build_track_ok t Ht), (IH Hs'). reflexivity.
Qed.

Lemma build_artist_ok (d : dict) :
  wf_songs d ->
  build_genius_artist_data (VDict d) = Ok (VDict (artist_record d)).
Proof.
  intros Hwf. unfold build_genius_artist_data.
  change [VStr "description"; VStr "plain"] with (map VStr ["description"; "plain"]).
  rewrite !safe_extract_extracted, !safe_get_dict. cbn [bind try_except].
  assert (Htracks :
    (tracks <- py_iter (get_or d "songs" (VDict [])) ;;
     mapM build_genius_artist_track tracks)
    = Ok (map built_track (listed_songs d))).
  { unfold listed_songs, get_or. unfold wf_songs in Hwf.
    destruct (dict_lookup "songs" d) as [[| | | | l |] |];
      try contradiction; simpl.
    - apply build_tracks_ok. exact Hwf.
    - reflexivity. }
  destruct (py_iter (get_or d "songs" (VDict []))) as [tracks | e];
    cbn [bind] in Htracks |- *; [| discriminate].
  rewrite Htracks. reflexivity.
Qed.

Lemma genius_artist_search_found (client : genius_client) (artist_name : string)
    (n_tracks : Z) (d : dict) :
  found client artist_name n_tracks d ->
  genius_artist_search client artist_name n_tracks = Ok (VDict d).
Proof.
  intros (a & Hs & Ht & Hd & Hn). unfold genius_artist_search.
  rewrite Hs. cbn [bind]. rewrite Ht, Hd. cbn [negb].
  rewrite safe_get_dict. unfold get_or. rewrite Hn. cbn [bind py_eq].
  rewrite String.eqb_refl. reflexivity.
Qed.

Lemma fetch_genius_found (client : genius_client) (artist_name : string)
    (n_tracks : Z) (d : dict) :
  found client artist_name n_tracks d -> wf_songs d ->
  fetch_genius_artist_data client artist_name n_tracks
  = Ok (VDict [("artist_data", VDict (artist_fields d));
               ("artist_tracks", VList (map built_track (listed_songs d)))]).
Proof.
  intros Hfound Hwf. unfold fetch_genius_artist_data.
  rewrite (genius_artist_search_found _ _ _ _ Hfound). cbn [bind].
  rewrite (build_artist_ok d Hwf). reflexivity.
Qed.

Lemma example_track_wf : wf_primary_artists example_track.
Proof. unfold wf_primary_artists. simpl. repeat constructor. Qed.

Example example_fetch :
  exists artist_data rec,
    fetch_genius_artist_data example_client "Test" 10
    = Ok (VDict [("artist_data", artist_data); ("artist_tracks", VList [VDict rec])])
    /\ dict_lookup "primary_artist" rec = Some (VStr "Test")
    /\ dict_lookup "primary_artists" rec = Some (VList [VStr "Feat"]).
Proof. eexists. eexists. split; [vm_compute; reflexivity | split; reflexivity]. Qed.

(** Names equal to the primary artist go, other repeated names stay. *)
Example other_duplicates_kept :
  exists rec,
    build_genius_artist_track
      (VDict [("primary_artist", VDict [("name", VStr "Test")]);
              ("primary_artists", VList [VDict [("name", VStr "Feat")];
                                         VDict [("name", VStr "Test")];
                                         VDict [("name", VStr "Feat")]])])
    = Ok (VDict rec)
    /\ dict_lookup "primary_artists" rec = Some (VList [VStr "Feat"; VStr "Feat"]).
Proof. eexists. split; [vm_compute; reflexivity | reflexivity]. Qed.

(** C9.  For a track that lists its primary artists as mappings, the
    record's [primary_artist] is what [safe_extract] yields on the path
    [['primary_artist', 'name']], the name itself when the path resolves
    to a truthy value, and [primary_artists] is the names of the listed
    artists, in order, without those equal to [primary_artist] and with
    every other repetition kept; on the track of the scenario these are
    ["Test"] and [["Feat"]]. *)
Theorem genius_track_primary_artists :
  (forall d : dict, d <> [] -> wf_primary_artists d ->
     exists rec pa,
       build_genius_artist_track (VDict d) = Ok (VDict rec)
       /\ safe_extract (VDict d) [VStr "primary_artist"; VStr "name"] UNKNOWN_VALUE
          = Ok pa
       /\ (forall v, resolve (VDict d) [VStr "primary_artist"; VStr "name"] = Some v ->
                     truthy v = true -> pa = v)
       /\ dict_lookup "primary_artist" rec = Some pa
       /\ dict_lookup "primary_artists" rec
          = Some (VList (List.filter (fun name => negb (py_eq name pa))
                                     (map artist_name (listed_artists d)))))
  /\ (exists rec,
        build_genius_artist_track (VDict example_track) = Ok (VDict rec)
        /\ dict_lookup "primary_artist" rec = Some (VStr "Test")
        /\ dict_lookup "primary_artists" rec = Some (VList [VStr "Feat"])).
Proof.
  split.
  - intros d Hd Hwf.
    exists (track_record d), (extracted (VDict d) ["primary_artist"; "name"]).
    split; [apply build_track_nonempty; assumption |].
    split; [apply (safe_extract_extracted (VDict d) ["primary_artist"; "name"]) |].
    split; [| split; reflexivity].
    intros v Hres Hv.
    pose proof (safe_extract_extracted (VDict d) ["primary_artist"; "name"]) as He.
    unfold safe_extract in He. simpl map in He.
    rewrite (extract_value_present UNKNOWN_VALUE (VDict d) v _ eq_refl Hres Hv) in He.
    injection He as <-. reflexivity.
  - eexists. split; [vm_compute; reflexivity | split; reflexivity].
Qed.

Lemma genius_track_primary_artists_witness :
  exists rec pa,
    build_genius_artist_track (VDict example_track) = Ok (VDict rec)
    /\ safe_extract (VDict example_track) [VStr "primary_artist"; VStr "name"]
         UNKNOWN_VALUE = Ok pa
    /\ (forall v, resolve (VDict example_track) [VStr "primary_artist"; VStr "name"]
                  = Some v -> truthy v = true -> pa = v)
    /\ dict_lookup "primary_artist" rec = Some pa
    /\ dict_lookup "primary_artists" rec
       = Some (VList (List.filter (fun name => negb (py_eq name pa))
                                  (map artist_name (listed_artists example_track)))).
Proof.
  apply (proj1 genius_track_primary_artists example_track).
  - discriminate.
  - exact example_track_wf.
Defined.

(** C10.  The empty track mapping is built into [None], and a found
    artist whose songs hold an empty mapping gets an [artist_tracks] list
    with [None] in it. *)
Theorem empty_track_gives_none_entry :
  build_genius_artist_track (VDict []) = Ok VNone
  /\ (forall (client : genius_client) (artist_name : string) (n_tracks : Z)
             (d : dict) (songs : list value),
        found client artist_name n_tracks d ->
        dict_lookup "songs" d = Some (VList songs) ->
        Forall wf_track songs ->
        In (VDict []) songs ->
        exists artist_data tracks,
          fetch_genius_artist_data client artist_name n_tracks
          = Ok (VDict [("artist_data", artist_data); ("artist_tracks", VList tracks)])
          /\ length tracks = length songs
          /\ In VNone tracks).
Proof.
  split; [reflexivity |].
  intros client artist_name n_tracks d songs Hfound Hsongs Hwf Hin.
  assert (Hwfs : wf_songs d) by (unfold wf_songs; rewrite Hsongs; exact Hwf).
  exists (VDict (artist_fields d)), (map built_track songs).
  split; [| split].
  - rewrite (fetch_genius_found client artist_name n_tracks d Hfound Hwfs).
    unfold listed_songs. rewrite Hsongs. reflexivity.
  - apply length_map.
  - change VNone with (built_track (VDict [])). apply in_map. exact Hin.
Qed.

Lemma empty_track_gives_none_entry_witness :
  exists artist_data tracks,
    fetch_genius_artist_data empty_song_client "Test" 10
    = Ok (VDict [("artist_data", artist_data); ("artist_tracks", VList tracks)])
    /\ length tracks = length [VDict []; VDict example_track]
    /\ In VNone tracks.
Proof.
  apply (proj2 empty_track_gives_none_entry empty_song_client "Test" 10%Z
           [("name", VStr "Test"); ("songs", VList [VDict []; VDict example_track])]
           [VDict []; VDict example_track]).
  - eexists. repeat split; reflexivity.
  - reflexivity.
  - constructor; [exists []; split; [reflexivity | exact I] |].
    constructor; [| constructor].
    exists example_track. split; [reflexivity | exact example_track_wf].
  - left. reflexivity.
Defined.

Lemma extracted_absent (d : dict) (path : list string) :
  resolve (VDict d) (map VStr path) = None ->
  extracted (VDict d) path = UNKNOWN_VALUE.
Proof.
  intros Hres. unfold extracted, UNKNOWN_VALUE.
  rewrite (extract_value_absent "UNKNOWN" path (VDict d) Hres). reflexivity.
Qed.

Ltac field_cases H :=
  repeat (destruct H as [H | H];
          [injection H as <- <- <- || injection H as <- <- |]);
  try destruct H.

Lemma track_record_defaulted (d : dict) :
  missing_defaulted d (track_record d) track_get_fields track_path_fields.
Proof.
  split.
  - intros out src dflt Hin Habs. unfold track_get_fields in Hin.
    field_cases Hin; cbn [track_record dict_lookup String.eqb Ascii.eqb Bool.eqb];
      unfold get_or, other_names, listed_artists; rewrite Habs; reflexivity.
  - intros out path Hin Habs. unfold track_path_fields in Hin.
    field_cases Hin; cbn [track_record dict_lookup String.eqb Ascii.eqb Bool.eqb];
      rewrite (extracted_absent d _ Habs); reflexivity.
Qed.

Lemma artist_record_defaulted (d : dict) :
  missing_defaulted d (artist_record d) artist_get_fields artist_path_fields.
Proof.
  split.
  - intros out src dflt Hin Habs. unfold artist_get_fields in Hin.
    field_cases Hin;
      cbn [artist_record artist_fields app dict_lookup String.eqb Ascii.eqb Bool.eqb];
      unfold get_or, listed_songs; rewrite Habs; reflexivity.
  - intros out path Hin Habs. unfold artist_path_fields in Hin.
    field_cases Hin;
      cbn [artist_record artist_fields app dict_lookup String.eqb Ascii.eqb Bool.eqb];
      rewrite (extracted_absent d _ Habs); reflexivity.
Qed.

(** C7, as the code has it.  The Genius track builder, on a track that is
    not the empty mapping, and the Genius artist builder return a record,
    and every field whose source is missing from the response holds the
    sentinel, or the empty list where that is the default.  The fields
    that are there have to be lists of mappings where the builders walk
    them. *)
Theorem genius_builders_default_missing_fields :
  (forall d : dict, d <> [] -> wf_primary_artists d ->
     exists rec, build_genius_artist_track (VDict d) = Ok (VDict rec)
                 /\ missing_defaulted d rec track_get_fields track_path_fields)
  /\ (forall d : dict, wf_songs d ->
        exists rec, build_genius_artist_data (VDict d) = Ok (VDict rec)
                    /\ missing_defaulted d rec artist_get_fields artist_path_fields).
Proof.
  split.
  - intros d Hd Hwf. exists (track_record d).
    split; [apply build_track_nonempty; assumption | apply track_record_defaulted].
  - intros d Hwf. exists (artist_record d).
    split; [apply build_artist_ok; assumption | apply artist_record_defaulted].
Qed.

Lemma genius_builders_default_missing_fields_witness :
  (exists rec, build_genius_artist_track (VDict [("title", VStr "A")]) = Ok (VDict rec)
               /\ missing_defaulted [("title", VStr "A")] rec
                    track_get_fields track_path_fields)
  /\ (exists rec, build_genius_artist_data (VDict []) = Ok (VDict rec)
                  /\ missing_defaulted [] rec artist_get_fields artist_path_fields).
Proof.
  destruct genius_builders_default_missing_fields as [Htrack Hartist].
  split.
  - apply (Htrack [("title", VStr "A")]); [discriminate | exact I].
  - apply (Hartist []). exact I.
Defined.

(** C7 as stated fails: in the empty mapping every expected field is
    absent, and the track builder returns no record for it. *)
Lemma empty_track_is_no_record :
  ~ (exists rec, build_genius_artist_track (VDict []) = Ok (VDict rec)).
Proof. intros [rec H]. discriminate H. Qed.

End GeniusBuilders.

(** ** Errors at the orchestrators *)

Module Orchestrators.
Import Py Utils Genius Spotify OrchestratorsSpec.

(** The [ArtistNotFoundError] raised inside the [try] of the search is
    caught by its own [except Exception] and leaves as a
    [GeniusAPIError]. *)
Lemma genius_artist_search_not_found (client : genius_client) (artist_name : string)
    (n_tracks : Z) :
  not_found client artist_name n_tracks ->
  genius_artist_search client artist_name n_tracks
  = Raise (fetching_error artist_name (not_found_error artist_name)).
Proof.
  unfold genius_artist_search.
  intros [Hs | (a & Hs & [Ht | (name & Hn & Hne)])]; rewrite Hs; cbn [bind].
  - reflexivity.
  - rewrite Ht. reflexivity.
  - destruct (artist_truthy a); cbn [negb]; [| reflexivity].
    rewrite Hn. cbn [bind]. rewrite Hne. reflexivity.
Qed.

Lemma genius_artist_search_raises (client : genius_client) (artist_name : string)
    (n_tracks : Z) (e : exn) :
  genius_artist_search client artist_name n_tracks = Raise e ->
  exn_cls e = GeniusAPIError.
Proof.
  unfold genius_artist_search, try_except.
  match goal with |- match ?b with _ => _ end = _ -> _ => destruct b end;
    [discriminate |].
  intros H. injection H as <-. reflexivity.
Qed.


Lemma genius_boundary_domain (e : exn) :
  isinstance e GeniusAPIError = true -> genius_boundary e = Raise e.
Proof. intros H. unfold genius_boundary. rewrite H. reflexivity. Qed.


Lemma fetch_genius_search_raises (client : genius_client) (artist_name : string)
    (n_tracks : Z) (e : exn) :
  genius_artist_search client artist_name n_tracks = Raise e ->
  fetch_genius_artist_data client artist_name n_tracks = Raise e.
Proof.
  intros H. unfold fetch_genius_artist_data. rewrite H. cbn [bind try_except].
  apply genius_boundary_domain.
  unfold isinstance. rewrite (genius_artist_search_raises _ _ _ _ H). reflexivity.
Qed.

(** C2, on the code.  Searching "Test" where the provider returns an
    artist named "Other", or no artist, the fetch returns no record and
    raises; the exception that reaches the caller is of class
    [GeniusAPIError], the [ArtistNotFoundError] having been caught and
    re-raised inside the search, and it is no [ArtistNotFoundError]. *)
Theorem genius_not_found_leaves_as_api_error :
  fetch_genius_artist_data wrong_name_client "Test" 10
  = Raise (Exn GeniusAPIError
             "Error fetching artist 'Test' from Genius API: Artist 'Test' not found on Genius.")
  /\ fetch_genius_artist_data no_artist_client "Test" 10
     = Raise (Exn GeniusAPIError
                "Error fetching artist 'Test' from Genius API: Artist 'Test' not found on Genius.")
  /\ isinstance
       (Exn GeniusAPIError
          "Error fetching artist 'Test' from Genius API: Artist 'Test' not found on Genius.")
       ArtistNotFoundError = false.
Proof. repeat split; vm_compute; reflexivity. Qed.

(** The same for every search that finds nothing usable. *)
Lemma fetch_genius_not_found (client : genius_client) (artist_name : string)
    (n_tracks : Z) :
  not_found client artist_name n_tracks ->
  fetch_genius_artist_data client artist_name n_tracks
  = Raise (fetching_error artist_name (not_found_error artist_name)).
Proof.
  intros H. apply fetch_genius_search_raises.
  apply genius_artist_search_not_found. exact H.
Qed.







(** The artist builder of Spotify indexes [images] directly: without that
    field the sentinel string is indexed and its first character is asked
    for ['url']. *)
Example build_spotify_artist_data_without_images :
  build_spotify_artist_data nobody_client (VDict [("id", VStr "a1"); ("name", VStr "X")])
  = Raise (Exn AttributeError "'str' object has no attribute 'get'").
Proof. vm_compute. reflexivity. Qed.

End Orchestrators.

(** ** More of the Safe Accessor and the Flattener *)

Module UtilsFacts.
Import Py Utils SafeAccessorSpec SafeAccessor FlattenerSpec Flattener UtilsSpec.

Lemma exact_sentinel_hashable (U : value) : exact_sentinel U -> hashable U = true.
Proof. destruct U; simpl; intros H; try contradiction; reflexivity. Qed.

Lemma exact_sentinel_eq (U w : value) :
  exact_sentinel U -> py_eq w U = true -> w = U.
Proof.
  destruct U; simpl; intros H; try contradiction.
  - destruct w; simpl; try discriminate. reflexivity.
  - apply py_eq_str.
Qed.

Lemma extract_loop_unresolved (U : value) (p : list string) :
  exact_sentinel U ->
  forall m, resolve m (map VStr p) = None ->
    extract_loop m (map VStr p) U = Ok U
    \/ exists msg, extract_loop m (map VStr p) U = Raise (Exn AttributeError msg).
Proof.
  intros HU. induction p as [| k p IH]; intros m Hres; [discriminate |].
  simpl in Hres. cbn [map extract_loop].
  destruct m as [| | | | | d]; try (right; eexists; reflexivity).
  cbn [safe_get hashable].
  destruct (dict_lookup k d) as [w |]; cbn [bind].
  - destruct (py_eq w U) eqn:Heq.
    + apply (exact_sentinel_eq U w HU) in Heq as ->. left. reflexivity.
    + apply IH. exact Hres.
  - rewrite (py_eq_hashable_refl U (exact_sentinel_hashable U HU)). left. reflexivity.
Qed.

Lemma extract_value_lookup_or (U m : value) (p : list string) :
  exact_sentinel U ->
  extract_value m (map VStr p) U = Ok (lookup_or m p U).
Proof.
  intros HU. unfold lookup_or.
  destruct (resolve m (map VStr p)) as [v |] eqn:Hres.
  - unfold extract_value.
    destruct (extract_loop_resolve U (map VStr p) []
                (exact_sentinel_hashable U HU) m v Hres) as [H | [H _]];
      rewrite app_nil_r in H; rewrite H; reflexivity.
  - unfold extract_value.
    destruct (extract_loop_unresolved U p HU m Hres) as [-> | [msg ->]].
    + destruct (truthy U); reflexivity.
    + reflexivity.
Qed.

(** X1.  On a path of string keys [extract_value], and [safe_extract] with
    it, is the plain nested lookup with every missing or falsy result
    replaced by the sentinel: it never raises, whatever the data. *)
Theorem extract_value_is_lookup (U m : value) (p : list string) :
  exact_sentinel U ->
  extract_value m (map VStr p) U = Ok (lookup_or m p U)
  /\ safe_extract m (map VStr p) U = Ok (lookup_or m p U).
Proof. intros HU. split; apply extract_value_lookup_or; exact HU. Qed.

Lemma extract_value_is_lookup_witness :
  extract_value (VDict [("stats", VDict [("pageviews", VInt 12)])])
    (map VStr ["stats"; "pageviews"]) UNKNOWN_VALUE
  = Ok (lookup_or (VDict [("stats", VDict [("pageviews", VInt 12)])])
          ["stats"; "pageviews"] UNKNOWN_VALUE)
  /\ safe_extract (VDict [("stats", VDict [("pageviews", VInt 12)])])
       (map VStr ["stats"; "pageviews"]) UNKNOWN_VALUE
     = Ok (lookup_or (VDict [("stats", VDict [("pageviews", VInt 12)])])
             ["stats"; "pageviews"] UNKNOWN_VALUE).
Proof. apply (extract_value_is_lookup UNKNOWN_VALUE). exact I. Defined.

(** X2.  The two accessors part ways on a value that is stored but falsy
    ([0], [""], [[]], [None]): [safe_get] returns it as it is, while
    [extract_value] on the same key returns the sentinel in its place. *)
Theorem accessors_differ_on_falsy_values (d : dict) (k : string) (v U : value) :
  dict_lookup k d = Some v ->
  hashable U = true ->
  safe_get (VDict d) (VStr k) U = Ok v
  /\ extract_value (VDict d) [VStr k] U = Ok (if truthy v then v else U).
Proof.
  intros Hlk HU. split.
  - unfold safe_get. simpl. rewrite Hlk. reflexivity.
  - assert (Hres : resolve (VDict d) [VStr k] = Some v).
    { simpl. rewrite Hlk. reflexivity. }
    unfold extract_value.
    destruct (extract_loop_resolve U [VStr k] [] HU (VDict d) v Hres) as [H | [H _]];
      rewrite app_nil_r in H; rewrite H; reflexivity.
Qed.

Lemma accessors_differ_on_falsy_values_witness :
  safe_get (VDict [("popularity", VInt 0)]) (VStr "popularity") UNKNOWN_VALUE
  = Ok (VInt 0)
  /\ extract_value (VDict [("popularity", VInt 0)]) [VStr "popularity"] UNKNOWN_VALUE
     = Ok (if truthy (VInt 0) then VInt 0 else UNKNOWN_VALUE).
Proof.
  apply (accessors_differ_on_falsy_values [("popularity", VInt 0)] "popularity").
  - reflexivity.
  - reflexivity.
Defined.

(** X3.  Flattening is idempotent: a second call under the same key finds the
    key gone and leaves the object, and the heap, as the first call left
    them. *)
Theorem flat_nested_dictionary_idempotent (h h1 : heap) (d l : loc) (k : string) :
  flat_nested_dictionary d (VStr k) h = Ok (l, h1) ->
  flat_nested_dictionary d (VStr k) h1 = Ok (l, h1).
Proof.
  unfold flat_nested_dictionary, deref, heap, loc in *.
  destruct (h !! d) as [[| | | | | r] |] eqn:Hd; simpl; try discriminate.
  rewrite flat_nested_contents_dict. simpl. intros H. injection H as <- <-.
  rewrite lookup_insert_eq. simpl.
  rewrite flat_nested_contents_dict. simpl.
  assert (Hgone : dict_lookup k (flattened r k) = None).
  { unfold flattened. rewrite dict_lookup_pop, String.eqb_refl. reflexivity. }
  assert (Hsame : flattened (flattened r k) k = flattened r k).
  { unfold flattened at 1. rewrite Hgone. apply dict_pop_absent. exact Hgone. }
  rewrite Hsame, insert_insert_eq. reflexivity.
Qed.

Lemma flat_nested_dictionary_idempotent_witness :
  flat_nested_dictionary 0%nat (VStr "x")
    (<[0%nat := VDict [("b", VInt 2); ("a", VInt 1)]]>
       {[ 0%nat := VDict [("x", VDict [("a", VInt 1)]); ("b", VInt 2)] ]})
  = Ok (0%nat,
        <[0%nat := VDict [("b", VInt 2); ("a", VInt 1)]]>
          {[ 0%nat := VDict [("x", VDict [("a", VInt 1)]); ("b", VInt 2)] ]}).
Proof.
  apply (flat_nested_dictionary_idempotent
           {[ 0%nat := VDict [("x", VDict [("a", VInt 1)]); ("b", VInt 2)] ]}).
  unfold flat_nested_dictionary, deref, heap, loc.
  rewrite (lookup_singleton_eq (M := gmap nat)). reflexivity.
Defined.

End UtilsFacts.

(** ** Setting up the clients *)

Module ClientsFacts.
Import Py Clients ClientsSpec.

(** X4.  Without a token in the environment, or with an empty one,
    [create_genius_client] raises [InvalidTokenError] whatever the
    library would do: the outer handlers let it through as it is. *)
Theorem create_genius_client_needs_token {C : Type} (getenv : string -> option string)
    (lib : genius_library C) :
  unset (getenv "GENIUS_API_TOKEN") = true ->
  create_genius_client getenv lib
  = Fail (SetupError InvalidTokenError missing_token_message).
Proof. intros H. unfold create_genius_client. rewrite H. reflexivity. Qed.

Lemma create_genius_client_needs_token_witness :
  create_genius_client (fun _ => None) broken_genius
  = Fail (SetupError InvalidTokenError missing_token_message).
Proof. apply (create_genius_client_needs_token (fun _ => None) broken_genius). reflexivity. Defined.

(** X5.  With a token, a failing constructor gives [GeniusClientError], a
    failing test call gives [GeniusConnectionError], each with the
    message of the failure in its own, and otherwise the client that the
    constructor built is returned. *)
Theorem create_genius_client_outcomes {C : Type} (getenv : string -> option string)
    (lib : genius_library C) (api_token : string) :
  getenv "GENIUS_API_TOKEN" = Some api_token ->
  api_token <> "" ->
  create_genius_client getenv lib
  = match Genius lib api_token with
    | Raise e =>
        Fail (SetupError GeniusClientError
                ("An unexpected error occurred in the Genius client setup: "
                 +:+ exn_msg e))
    | Ok genius =>
        match search_artist_features lib genius "ABCDEFGHIJKLMNOPKRSTUVWXYZ" 1 with
        | Raise e =>
            Fail (SetupError GeniusConnectionError
                    ("Failed to connect to Genius API: " +:+ exn_msg e))
        | Ok _ => Done genius
        end
    end.
Proof.
  intros Henv Hne. unfold create_genius_client. rewrite Henv.
  assert (Hset : unset (Some api_token) = false).
  { simpl. apply String.eqb_neq. exact Hne. }
  rewrite Hset. simpl default.
  destruct (Genius lib api_token) as [genius | e]; [| reflexivity].
  simpl.
  destruct (search_artist_features lib genius "ABCDEFGHIJKLMNOPKRSTUVWXYZ" 1);
    reflexivity.
Qed.

Lemma create_genius_client_outcomes_witness :
  create_genius_client token_env refusing_genius
  = Fail (SetupError GeniusConnectionError
            ("Failed to connect to Genius API: " +:+ "401 Unauthorized")).
Proof.
  apply (create_genius_client_outcomes token_env refusing_genius "t0k3n").
  - reflexivity.
  - discriminate.
Defined.

(** X6.  Whatever fails, the exception that leaves [create_genius_client] is a
    [GeniusClientError] or one of its two subclasses, never the
    exception of the library itself. *)
Theorem create_genius_client_error_surface {C : Type}
    (getenv : string -> option string) (lib : genius_library C) (e : setup_exn) :
  create_genius_client getenv lib = Fail e ->
  exists c msg, e = SetupError c msg /\ setup_subclass c GeniusClientError = true.
Proof.
  unfold create_genius_client, setup_try at 1.
  match goal with |- match ?b with _ => _ end = _ -> _ => destruct b as [c | e0] end;
    [discriminate |].
  destruct e0 as [e' | c msg].
  - simpl. intros H. injection H as <-. eexists _, _. split; reflexivity.
  - destruct c; simpl; intros H; injection H as <-; eexists _, _; split; reflexivity.
Qed.

Lemma create_genius_client_error_surface_witness :
  exists c msg,
    SetupError GeniusClientError
      ("An unexpected error occurred in the Genius client setup: " +:+ "no network")
    = SetupError c msg
    /\ setup_subclass c GeniusClientError = true.
Proof.
  apply (create_genius_client_error_surface token_env broken_genius). reflexivity.
Defined.

(** X7.  Without both credentials in the environment, each non-empty,
    [create_spotify_client] raises [InvalidCredentialsError] whatever the
    library would do. *)
Theorem create_spotify_client_needs_credentials {M C : Type}
    (getenv : string -> option string) (lib : spotify_library M C) :
  unset (getenv "CLIENT_ID_SPOTIFY") = true
  \/ unset (getenv "CLIENT_SECRET_SPOTIFY") = true ->
  create_spotify_client getenv lib
  = Fail (SetupError InvalidCredentialsError missing_credentials_message).
Proof.
  intros H. unfold create_spotify_client.
  assert (Hor : unset (getenv "CLIENT_ID_SPOTIFY")
                || unset (getenv "CLIENT_SECRET_SPOTIFY") = true).
  { apply orb_true_iff. exact H. }
  rewrite Hor. reflexivity.
Qed.

Lemma create_spotify_client_needs_credentials_witness :
  create_spotify_client id_only_env broken_spotify
  = Fail (SetupError InvalidCredentialsError missing_credentials_message).
Proof.
  apply (create_spotify_client_needs_credentials id_only_env broken_spotify).
  right. reflexivity.
Defined.

(** X8.  With both credentials, a failing constructor (of the credentials
    manager or of the client) gives [SpotifyClientError], a failing test
    call gives [SpotifyConnectionError], each with the message of the
    failure in its own, and otherwise the client built is returned. *)
Theorem create_spotify_client_outcomes {M C : Type} (getenv : string -> option string)
    (lib : spotify_library M C) (client_id client_secret : string) :
  getenv "CLIENT_ID_SPOTIFY" = Some client_id ->
  getenv "CLIENT_SECRET_SPOTIFY" = Some client_secret ->
  client_id <> "" -> client_secret <> "" ->
  create_spotify_client getenv lib
  = match SpotifyClientCredentials lib client_id client_secret with
    | Raise e =>
        Fail (SetupError SpotifyClientError
                ("An unexpected error occurred in the Spotify client setup: "
                 +:+ exn_msg e))
    | Ok manager =>
        match Spotify lib manager with
        | Raise e =>
            Fail (SetupError SpotifyClientError
                    ("An unexpected error occurred in the Spotify client setup: "
                     +:+ exn_msg e))
        | Ok spotify =>
            match search_limit lib spotify "ABCDEFGHIJKLMNOPKRSTUVWXYZ" 1 with
            | Raise e =>
                Fail (SetupError SpotifyConnectionError
                        ("Failed to connect to Spotify API: " +:+ exn_msg e))
            | Ok _ => Done spotify
            end
        end
    end.
Proof.
  intros Hid Hsecret Hne1 Hne2. unfold create_spotify_client.
  rewrite Hid, Hsecret.
  assert (Hset : unset (Some client_id) || unset (Some client_secret) = false).
  { simpl. apply orb_false_iff. split; apply String.eqb_neq; assumption. }
  rewrite Hset. simpl default.
  destruct (SpotifyClientCredentials lib client_id client_secret) as [manager | e];
    [| reflexivity].
  simpl. destruct (Spotify lib manager) as [spotify | e]; [| reflexivity].
  simpl.
  destruct (search_limit lib spotify "ABCDEFGHIJKLMNOPKRSTUVWXYZ" 1); reflexivity.
Qed.

Lemma create_spotify_client_outcomes_witness :
  create_spotify_client credentials_env refusing_spotify
  = Fail (SetupError SpotifyConnectionError
            ("Failed to connect to Spotify API: " +:+ "401 Unauthorized")).
Proof.
  apply (create_spotify_client_outcomes credentials_env refusing_spotify "id" "secret").
  - reflexivity.
  - reflexivity.
  - discriminate.
  - discriminate.
Defined.

(** X9.  Whatever fails, the exception that leaves [create_spotify_client] is
    a [SpotifyClientError] or one of its two subclasses. *)
Theorem create_spotify_client_error_surface {M C : Type}
    (getenv : string -> option string) (lib : spotify_library M C) (e : setup_exn) :
  create_spotify_client getenv lib = Fail e ->
  exists c msg, e = SetupError c msg /\ setup_subclass c SpotifyClientError = true.
Proof.
  unfold create_spotify_client, setup_try at 1.
  match goal with |- match ?b with _ => _ end = _ -> _ => destruct b as [c | e0] end;
    [discriminate |].
  destruct e0 as [e' | c msg].
  - simpl. intros H. injection H as <-. eexists _, _. split; reflexivity.
  - destruct c; simpl; intros H; injection H as <-; eexists _, _; split; reflexivity.
Qed.

Lemma create_spotify_client_error_surface_witness :
  exists c msg,
    SetupError SpotifyClientError
      ("An unexpected error occurred in the Spotify client setup: " +:+ "no network")
    = SetupError c msg
    /\ setup_subclass c SpotifyClientError = true.
Proof.
  apply (create_spotify_client_error_surface credentials_env broken_spotify).
  reflexivity.
Defined.

End ClientsFacts.

(** ** The shape of the Genius records *)

Module GeniusShape.
Import Py Utils Genius SafeAccessorSpec SafeAccessor GeniusBuildersSpec GeniusBuilders.
Import OrchestratorsSpec GeniusShapeSpec.

(** Case analysis along a chain of binds in a hypothesis. *)
Ltac bind_cases H :=
  repeat match type of H with
         | context [bind ?x _] =>
             let E := fresh "E" in
             destruct x eqn:E; cbn [bind try_except] in H; try discriminate H
         end.

Lemma append_assoc (s1 s2 s3 : string) : (s1 +:+ s2) +:+ s3 = s1 +:+ s2 +:+ s3.
Proof.
  induction s1 as [| c s1 IH]; [reflexivity |].
  change (String c ((s1 +:+ s2) +:+ s3) = String c (s1 +:+ s2 +:+ s3)).
  rewrite IH. reflexivity.
Qed.

Lemma py_eq_empty_dict_inv (t : value) : py_eq t (VDict []) = true -> t = VDict [].
Proof.
  destruct t as [| | | | | d]; simpl; try discriminate.
  destruct d; [reflexivity | discriminate].
Qed.

Lemma mapM_Forall2 {A B} (f : A -> result B) (l : list A) :
  forall l', mapM f l = Ok l' -> Forall2 (fun x y => f x = Ok y) l l'.
Proof.
  induction l as [| x l IH]; simpl; intros l' H.
  - injection H as <-. constructor.
  - destruct (f x) as [y |] eqn:Hx; [| discriminate]. simpl in H.
    destruct (mapM f l) as [ys |]; [| discriminate]. simpl in H.
    injection H as <-. constructor; [exact Hx | apply IH; reflexivity].
Qed.

(** X10.  [genius_artist_search] returns exactly when the provider hands back
    a truthy artist object whose [name] is the queried string, and then
    it returns that object's [to_dict()] untouched; every failure,
    whatever its cause, leaves as a plain [GeniusAPIError] whose message
    names the artist. *)
Theorem genius_artist_search_exact_match (client : genius_client)
    (artist_name : string) (n_tracks : Z) :
  (forall r,
     genius_artist_search client artist_name n_tracks = Ok r
     <-> exists a, search_artist client artist_name n_tracks = Ok (Some a)
           /\ artist_truthy a = true
           /\ to_dict a = r
           /\ safe_get r (VStr "name") UNKNOWN_VALUE = Ok (VStr artist_name))
  /\ (forall e,
        genius_artist_search client artist_name n_tracks = Raise e ->
        exn_cls e = GeniusAPIError
        /\ prefixed ("Error fetching artist '" +:+ artist_name +:+ "' from Genius API: ")
             (exn_msg e)).
Proof.
  split.
  - intros r. unfold genius_artist_search. split.
    + intros H.
      destruct (search_artist client artist_name n_tracks) as [[a |] | e0];
        cbn [bind try_except] in H; try discriminate H.
      destruct (artist_truthy a) eqn:Ht; cbn [negb] in H; [| discriminate H].
      destruct (safe_get (to_dict a) (VStr "name") UNKNOWN_VALUE) as [nm | e0] eqn:Hn;
        cbn [bind] in H; [| discriminate H].
      destruct (py_eq nm (VStr artist_name)) eqn:Heq; cbn [negb try_except] in H;
        [| discriminate H].
      injection H as <-. apply py_eq_str in Heq as ->.
      exists a. repeat split; assumption.
    + intros (a & Hs & Ht & <- & Hn). rewrite Hs. cbn [bind]. rewrite Ht, Hn.
      cbn [negb bind py_eq]. rewrite String.eqb_refl. reflexivity.
  - intros e H. unfold genius_artist_search, try_except in H.
    match type of H with
    | match ?b with _ => _ end = _ => destruct b; [discriminate H |]
    end.
    injection H as <-. split; [reflexivity |].
    exists (exn_msg e0). cbn [exn_msg]. rewrite !append_assoc. reflexivity.
Qed.

Lemma genius_artist_search_exact_match_witness :
  genius_artist_search nameless_client "UNKNOWN" 10 = Ok (VDict [("id", VInt 3)]).
Proof.
  apply (proj1 (genius_artist_search_exact_match nameless_client "UNKNOWN" 10)).
  eexists. repeat split; reflexivity.
Defined.

(** X11.  The track builder has three outcomes: [None], for the empty mapping
    and nothing else; a record with the fifteen keys of the dict display,
    in that order; or a [TrackDataError] that names the step. *)
Theorem build_genius_artist_track_outcomes (t : value) :
  (build_genius_artist_track t = Ok VNone <-> t = VDict [])
  /\ (forall out, build_genius_artist_track t = Ok out ->
        out = VNone \/ exists rec, out = VDict rec /\ map fst rec = track_keys)
  /\ (forall e, build_genius_artist_track t = Raise e ->
        exn_cls e = TrackDataError
        /\ prefixed "Error occurred while building track data: " (exn_msg e)).
Proof.
  assert (Hbuilt : forall out, build_genius_artist_track t = Ok out ->
            (out = VNone /\ t = VDict [])
            \/ exists rec, out = VDict rec /\ map fst rec = track_keys).
  { intros out H. unfold build_genius_artist_track in H.
    destruct (py_eq t (VDict [])) eqn:Hempty.
    - injection H as <-. left. split; [reflexivity |].
      apply py_eq_empty_dict_inv. exact Hempty.
    - right. bind_cases H. cbn [try_except] in H. injection H as <-.
      eexists. split; reflexivity. }
  split; [| split].
  - split.
    + intros H. destruct (Hbuilt _ H) as [[_ Ht] | (rec & Hrec & _)];
        [exact Ht | discriminate Hrec].
    + intros ->. reflexivity.
  - intros out H. destruct (Hbuilt _ H) as [[-> _] | Hrec]; [left; reflexivity |].
    right. exact Hrec.
  - intros e H. unfold build_genius_artist_track in H.
    destruct (py_eq t (VDict [])); [discriminate H |].
    unfold try_except in H.
    match type of H with
    | match ?b with _ => _ end = _ => destruct b; [discriminate H |]
    end.
    injection H as <-. split; [reflexivity | eexists; reflexivity].
Qed.

Lemma build_genius_artist_track_outcomes_witness :
  exn_cls (Exn TrackDataError
             ("Error occurred while building track data: "
              +:+ "'str' object has no attribute 'get'")) = TrackDataError
  /\ prefixed "Error occurred while building track data: "
       (exn_msg (Exn TrackDataError
                   ("Error occurred while building track data: "
                    +:+ "'str' object has no attribute 'get'"))).
Proof.
  apply (proj2 (proj2 (build_genius_artist_track_outcomes (VStr "x")))).
  reflexivity.
Defined.

(** What a returned artist record is made of. *)
Lemma build_genius_artist_data_inv (r out : value) :
  build_genius_artist_data r = Ok out ->
  exists fields songs_value songs tracks,
    out = VDict (fields ++ [("genius_tracks", VList tracks)])
    /\ map fst fields = removelast artist_keys
    /\ safe_get r (VStr "songs") (VDict []) = Ok songs_value
    /\ py_iter songs_value = Ok songs
    /\ mapM build_genius_artist_track songs = Ok tracks.
Proof.
  intros H. unfold build_genius_artist_data in H. bind_cases H.
  cbn [try_except] in H. injection H as <-.
  eexists [_; _; _; _; _; _; _; _; _; _; _], _, _, _.
  split; [reflexivity |]. split; [reflexivity |]. repeat split; eassumption.
Qed.

Lemma dict_lookup_app_r (k : string) (d1 d2 : dict) :
  ~ In k (map fst d1) -> dict_lookup k (d1 ++ d2) = dict_lookup k d2.
Proof.
  induction d1 as [| [a b] d1 IH]; simpl; intros Hin; [reflexivity |].
  destruct (String.eqb a k) eqn:Hak.
  - apply String.eqb_eq in Hak. tauto.
  - apply IH. tauto.
Qed.

Lemma dict_lookup_filter (k' : string) (d : dict) (keep : string -> bool) :
  keep k' = true ->
  dict_lookup k' (List.filter (fun kv => keep (fst kv)) d) = dict_lookup k' d.
Proof.
  intros Hk. induction d as [| [a b] d IH]; simpl; [reflexivity |].
  destruct (keep a) eqn:Ha; simpl.
  - rewrite IH. reflexivity.
  - rewrite IH. destruct (String.eqb a k') eqn:Hak; [| reflexivity].
    apply String.eqb_eq in Hak as ->. congruence.
Qed.

(** X12.  The artist builder returns a record with the twelve keys of the
    dict display, in that order, whose [genius_tracks] holds one built
    track (or [None]) per song, in the order of the songs; whatever
    fails leaves as a [TrackDataError] that names the step. *)
Theorem build_genius_artist_data_outcomes (r : value) :
  (forall out, build_genius_artist_data r = Ok out ->
     exists rec songs_value songs tracks,
       out = VDict rec
       /\ map fst rec = artist_keys
       /\ dict_lookup "genius_tracks" rec = Some (VList tracks)
       /\ safe_get r (VStr "songs") (VDict []) = Ok songs_value
       /\ py_iter songs_value = Ok songs
       /\ Forall2 (fun song track => build_genius_artist_track song = Ok track)
            songs tracks)
  /\ (forall e, build_genius_artist_data r = Raise e ->
        exn_cls e = TrackDataError
        /\ prefixed "Error occurred while building artist data: " (exn_msg e)).
Proof.
  split.
  - intros out H.
    destruct (build_genius_artist_data_inv r out H)
      as (fields & songs_value & songs & tracks & -> & Hkeys & Hs & Hi & Hm).
    exists (fields ++ [("genius_tracks", VList tracks)]), songs_value, songs, tracks.
    split; [reflexivity |]. split; [| split; [| split; [| split]]].
    + rewrite map_app, Hkeys. reflexivity.
    + rewrite dict_lookup_app_r; [reflexivity |].
      rewrite Hkeys. simpl.
      intros Hin. repeat (destruct Hin as [Hin | Hin]; [discriminate Hin |]).
      exact Hin.
    + exact Hs.
    + exact Hi.
    + apply mapM_Forall2. exact Hm.
  - intros e H. unfold build_genius_artist_data, try_except in H.
    match type of H with
    | match ?b with _ => _ end = _ => destruct b; [discriminate H |]
    end.
    injection H as <-. split; [reflexivity | eexists; reflexivity].
Qed.

Lemma build_genius_artist_data_outcomes_witness :
  exists rec songs_value songs tracks,
    VDict (artist_record example_artist) = VDict rec
    /\ map fst rec = artist_keys
    /\ dict_lookup "genius_tracks" rec = Some (VList tracks)
    /\ safe_get (VDict example_artist) (VStr "songs") (VDict []) = Ok songs_value
    /\ py_iter songs_value = Ok songs
    /\ Forall2 (fun song track => build_genius_artist_track song = Ok track)
         songs tracks.
Proof.
  apply (proj1 (build_genius_artist_data_outcomes (VDict example_artist))).
  vm_compute. reflexivity.
Defined.

(** X13.  The first song that the track builder fails on fails the whole
    artist record, with the track's message wrapped a second time, and
    with it the fetch: no partial result is returned. *)
Theorem first_failing_track_fails_the_fetch (client : genius_client)
    (artist_name : string) (n_tracks : Z) (d : dict) (before after : list value)
    (t : value) (e : exn) :
  found client artist_name n_tracks d ->
  dict_lookup "songs" d = Some (VList (before ++ t :: after)) ->
  Forall (fun song => exists track, build_genius_artist_track song = Ok track) before ->
  build_genius_artist_track t = Raise e ->
  build_genius_artist_data (VDict d)
  = Raise (Exn TrackDataError
             ("Error occurred while building artist data: " +:+ exn_msg e))
  /\ fetch_genius_artist_data client artist_name n_tracks
     = Raise (Exn TrackDataError
                ("Error occurred while building artist data: " +:+ exn_msg e)).
Proof.
  intros Hfound Hsongs Hbefore Ht.
  assert (Hmap : mapM build_genius_artist_track (before ++ t :: after) = Raise e).
  { clear Hsongs. induction Hbefore as [| song before [track Hs] _ IH]; simpl.
    - rewrite Ht. reflexivity.
    - rewrite Hs. simpl. rewrite IH. reflexivity. }
  assert (Hbuild : build_genius_artist_data (VDict d)
                   = Raise (Exn TrackDataError
                              ("Error occurred while building artist data: "
                               +:+ exn_msg e))).
  { unfold build_genius_artist_data.
    change [VStr "description"; VStr "plain"] with (map VStr ["description"; "plain"]).
    rewrite !safe_extract_extracted, !safe_get_dict. cbn [bind].
    assert (Hg : get_or d "songs" (VDict []) = VList (before ++ t :: after)).
    { unfold get_or. rewrite Hsongs. reflexivity. }
    rewrite Hg. cbn [py_iter bind]. rewrite Hmap. reflexivity. }
  split; [exact Hbuild |].
  unfold fetch_genius_artist_data.
  rewrite (genius_artist_search_found _ _ _ _ Hfound). cbn [bind]. rewrite Hbuild.
  reflexivity.
Qed.

Lemma first_failing_track_fails_the_fetch_witness :
  build_genius_artist_data (VDict [("name", VStr "Test"); ("songs", VList [VStr "x"])])
  = Raise (Exn TrackDataError
             ("Error occurred while building artist data: "
              +:+ exn_msg (Exn TrackDataError
                             ("Error occurred while building track data: "
                              +:+ "'str' object has no attribute 'get'"))))
  /\ fetch_genius_artist_data bad_songs_client "Test" 10
     = Raise (Exn TrackDataError
                ("Error occurred while building artist data: "
                 +:+ exn_msg (Exn TrackDataError
                                ("Error occurred while building track data: "
                                 +:+ "'str' object has no attribute 'get'")))).
Proof.
  apply (first_failing_track_fails_the_fetch bad_songs_client "Test" 10%Z
           [("name", VStr "Test"); ("songs", VList [VStr "x"])] [] [] (VStr "x")).
  - eexists. repeat split; reflexivity.
  - reflexivity.
  - constructor.
  - reflexivity.
Defined.

(** X14.  A successful fetch splits the artist record in two: [artist_data]
    is the record without its [genius_tracks], every other field as it
    was, and [artist_tracks] is the list that was under [genius_tracks]. *)
Theorem fetch_genius_splits_the_record (client : genius_client)
    (artist_name : string) (n_tracks : Z) (r out : value) :
  genius_artist_search client artist_name n_tracks = Ok r ->
  build_genius_artist_data r = Ok out ->
  exists rec data tracks,
    out = VDict rec
    /\ fetch_genius_artist_data client artist_name n_tracks
       = Ok (VDict [("artist_data", VDict data); ("artist_tracks", VList tracks)])
    /\ dict_lookup "genius_tracks" rec = Some (VList tracks)
    /\ dict_lookup "genius_tracks" data = None
    /\ map fst data = removelast artist_keys
    /\ (forall k, k <> "genius_tracks" -> dict_lookup k data = dict_lookup k rec).
Proof.
  intros Hsearch Hbuild.
  destruct (build_genius_artist_data_inv r out Hbuild)
    as (fields & songs_value & songs & tracks & -> & Hkeys & _).
  assert (Hnotin : ~ In "genius_tracks" (map fst fields)).
  { rewrite Hkeys. simpl.
    intros Hin. repeat (destruct Hin as [Hin | Hin]; [discriminate Hin |]).
    exact Hin. }
  assert (Hlk : dict_lookup "genius_tracks" (fields ++ [("genius_tracks", VList tracks)])
                = Some (VList tracks)).
  { rewrite dict_lookup_app_r by exact Hnotin. reflexivity. }
  assert (Hfilter :
    List.filter (fun kv => negb (String.eqb (fst kv) "genius_tracks"))
      (fields ++ [("genius_tracks", VList tracks)]) = fields).
  { rewrite List.filter_app. simpl. rewrite app_nil_r.
    clear - Hnotin. induction fields as [| [a b] fields IH]; [reflexivity |].
    simpl in *. destruct (String.eqb a "genius_tracks") eqn:Ha.
    - apply String.eqb_eq in Ha. tauto.
    - simpl. rewrite IH by tauto. reflexivity. }
  exists (fields ++ [("genius_tracks", VList tracks)]), fields, tracks.
  split; [reflexivity |]. split; [| split; [| split; [| split]]].
  - unfold fetch_genius_artist_data. rewrite Hsearch. cbn [bind]. rewrite Hbuild.
    cbn [bind without_tracks]. rewrite Hfilter.
    rewrite safe_get_dict. unfold get_or. rewrite Hlk. reflexivity.
  - exact Hlk.
  - apply Flattener.dict_lookup_absent. exact Hnotin.
  - exact Hkeys.
  - intros k Hk. rewrite <- Hfilter at 1.
    apply (dict_lookup_filter k _ (fun a => negb (String.eqb a "genius_tracks"))).
    apply negb_true_iff. apply String.eqb_neq. congruence.
Qed.

Lemma fetch_genius_splits_the_record_witness :
  exists rec data tracks,
    VDict (artist_record example_artist) = VDict rec
    /\ fetch_genius_artist_data example_client "Test" 10
       = Ok (VDict [("artist_data", VDict data); ("artist_tracks", VList tracks)])
    /\ dict_lookup "genius_tracks" rec = Some (VList tracks)
    /\ dict_lookup "genius_tracks" data = None
    /\ map fst data = removelast artist_keys
    /\ (forall k, k <> "genius_tracks" -> dict_lookup k data = dict_lookup k rec).
Proof.
  apply (fetch_genius_splits_the_record example_client "Test" 10%Z
           (VDict example_artist)).
  - vm_compute. reflexivity.
  - vm_compute. reflexivity.
Defined.

End GeniusShape.

(** ** The Spotify builders *)

Module SpotifyBuilders.
Import Py Utils Spotify SafeAccessorSpec SafeAccessor UtilsSpec UtilsFacts.
Import GeniusBuildersSpec GeniusBuilders SpotifyBuildersSpec.

Lemma safe_extract_lookup_or (U m : value) (p : list string) :
  exact_sentinel U -> safe_extract m (map VStr p) U = Ok (lookup_or m p U).
Proof. apply extract_value_lookup_or. Qed.



(** Indexing and iterating a [str] go by character, not by byte: of the
    three bytes of U+00E9 followed by [a], the first character is the
    two-byte one, and that is what the search returns for such items. *)
Example chars_of_accented_str :
  chars (e_acute +:+ "a") = [VStr e_acute; VStr "a"]
  /\ py_index0 (VStr (e_acute +:+ "a")) = Ok (VStr e_acute)
  /\ py_iter (VStr (e_acute +:+ "a")) = Ok [VStr e_acute; VStr "a"].
Proof. repeat split; reflexivity. Qed.

Example spotify_artist_search_str_items :
  spotify_artist_search str_items_catalogue "X" = Ok (VStr e_acute).
Proof. reflexivity. Qed.

(** X16.  The artist builder indexes the images directly: a search result
    without [images] makes it raise [AttributeError], one with an empty
    list of images [IndexError], before the client is asked anything. *)
Theorem build_spotify_artist_data_needs_an_image (client : spotify_client) (d : dict) :
  (dict_lookup "images" d = None ->
   build_spotify_artist_data client (VDict d)
   = Raise (Exn AttributeError "'str' object has no attribute 'get'"))
  /\ (dict_lookup "images" d = Some (VList []) ->
      build_spotify_artist_data client (VDict d)
      = Raise (Exn IndexError "list index out of range")).
Proof.
  split; intros Himg; unfold build_spotify_artist_data;
    rewrite !safe_get_dict; cbn [bind].
  - assert (Hg : get_or d "images" UNKNOWN_VALUE = UNKNOWN_VALUE).
    { unfold get_or. rewrite Himg. reflexivity. }
    rewrite Hg. reflexivity.
  - assert (Hg : get_or d "images" UNKNOWN_VALUE = VList []).
    { unfold get_or. rewrite Himg. reflexivity. }
    rewrite Hg. reflexivity.
Qed.

Lemma build_spotify_artist_data_needs_an_image_witness :
  build_spotify_artist_data small_catalogue (VDict [("id", VStr "ar1")])
  = Raise (Exn AttributeError "'str' object has no attribute 'get'")
  /\ build_spotify_artist_data small_catalogue (VDict [("images", VList [])])
     = Raise (Exn IndexError "list index out of range").
Proof.
  split.
  - apply (proj1 (build_spotify_artist_data_needs_an_image small_catalogue
                    [("id", VStr "ar1")])). reflexivity.
  - apply (proj2 (build_spotify_artist_data_needs_an_image small_catalogue
                    [("images", VList [])])). reflexivity.
Defined.

Lemma related_names (l : list value) :
  Forall (fun a => is_dict a = true) l ->
  mapM (fun artist_related => safe_get artist_related (VStr "name") UNKNOWN_VALUE) l
  = Ok (map artist_name l).
Proof.
  induction l as [| a l IH]; intros Hl; [reflexivity |].
  inversion Hl as [| ? ? Ha Hl']; subst.
  destruct a as [| | | | | d]; try discriminate.
  cbn [mapM map artist_name]. rewrite safe_get_dict. cbn [bind].
  rewrite (IH Hl'). reflexivity.
Qed.

(** X17.  With a first image that is a mapping and related artists that come
    as a list of mappings, the artist builder returns its nine fields:
    each missing one holds the sentinel, the image is the first one, the
    related names keep their order, and the related artists were asked
    for under the identifier of the record, the sentinel if there is
    none. *)
Theorem build_spotify_artist_data_record (client : spotify_client)
    (d image related_response : dict) (more_images related : list value) :
  dict_lookup "images" d = Some (VList (VDict image :: more_images)) ->
  artist_related_artists client (get_or d "id" UNKNOWN_VALUE)
  = Ok (VDict related_response) ->
  dict_lookup "artists" related_response = Some (VList related) ->
  Forall (fun a => is_dict a = true) related ->
  build_spotify_artist_data client (VDict d)
  = Ok (VDict (spotify_artist_record d image related)).
Proof.
  intros Himg Hrel Hartists Hdicts. unfold build_spotify_artist_data.
  change [VStr "followers"; VStr "total"] with (map VStr ["followers"; "total"]).
  rewrite (safe_extract_lookup_or UNKNOWN_VALUE (VDict d) ["followers"; "total"] I).
  rewrite !safe_get_dict. cbn [bind].
  assert (Hg : get_or d "images" UNKNOWN_VALUE = VList (VDict image :: more_images)).
  { unfold get_or. rewrite Himg. reflexivity. }
  rewrite Hg. cbn [py_index0 bind]. rewrite safe_get_dict. cbn [bind].
  rewrite Hrel. cbn [bind]. rewrite safe_get_dict. cbn [bind].
  assert (Ha : get_or related_response "artists" UNKNOWN_VALUE = VList related).
  { unfold get_or. rewrite Hartists. reflexivity. }
  rewrite Ha. cbn [py_iter bind]. rewrite (related_names related Hdicts).
  reflexivity.
Qed.

Lemma build_spotify_artist_data_record_witness :
  build_spotify_artist_data small_catalogue
    (VDict [("name", VStr "X"); ("images", VList [VDict [("url", VStr "http://img")]])])
  = Ok (VDict (spotify_artist_record
                 [("name", VStr "X"); ("images", VList [VDict [("url", VStr "http://img")]])]
                 [("url", VStr "http://img")]
                 [VDict [("name", VStr "Y")]; VDict []])).
Proof.
  apply (build_spotify_artist_data_record small_catalogue _ _
           [("artists", VList [VDict [("name", VStr "Y")]; VDict []])] []).
  - reflexivity.
  - reflexivity.
  - reflexivity.
  - repeat constructor.
Defined.

End SpotifyBuilders.

(** ** More of the Paginator *)

Module OrderingFacts.
Import OrderedMap OrderedMapFacts OrderingSpec.
Section ordering_facts.
Context {K V : Type} `{EqDecision K}.

Lemma filter_filter (p q : K -> bool) (l : list K) :
  List.filter p (List.filter q l) = List.filter (fun x => q x && p x) l.
Proof.
  induction l as [| x l IH]; simpl; [reflexivity |].
  destruct (q x); simpl; [destruct (p x) |]; rewrite ?IH; reflexivity.
Qed.

Lemma fresh_true (l : list K) (k : K) : fresh l k = true <-> ~ In k l.
Proof.
  unfold fresh. rewrite forallb_forall. split.
  - intros Hall Hin. specialize (Hall k Hin).
    rewrite bool_decide_eq_true_2 in Hall by reflexivity. discriminate.
  - intros Hnin k' Hk'. apply negb_true_iff, bool_decide_eq_false_2.
    intros ->. exact (Hnin Hk').
Qed.

Lemma fresh_snoc (l : list K) (k x : K) :
  fresh (l ++ [k]) x = negb (bool_decide (x = k)) && fresh l x.
Proof.
  unfold fresh. rewrite forallb_app. simpl. rewrite andb_true_r. apply andb_comm.
Qed.

(** The keys of the map are those it had, then the new ones in the order
    of their first occurrence. *)
Lemma obuild_keys (input : list (K * V)) :
  forall d,
    map fst (obuild input d)
    = map fst d ++ List.filter (fresh (map fst d)) (first_occurrences (map fst input)).
Proof.
  induction input as [| [k v] input IH]; intros d.
  - simpl. rewrite app_nil_r. reflexivity.
  - change (obuild ((k, v) :: input) d) with (obuild input (oset k v d)).
    rewrite IH. cbn [map fst first_occurrences List.filter].
    destruct (oset_keys k v d) as [[Hin ->] | [Hnin ->]].
    + assert (Hk : fresh (map fst d) k = false).
      { apply not_true_iff_false. rewrite fresh_true. tauto. }
      rewrite Hk. f_equal. rewrite filter_filter.
      apply filter_ext_in. intros x _. symmetry.
      destruct (fresh (map fst d) x) eqn:Hx; [| apply andb_false_r].
      rewrite andb_true_r. apply negb_true_iff, bool_decide_eq_false_2.
      intros ->. apply fresh_true in Hx. tauto.
    + assert (Hk : fresh (map fst d) k = true) by (apply fresh_true; exact Hnin).
      rewrite Hk. rewrite <- app_assoc. simpl. do 2 f_equal.
      rewrite filter_filter. apply filter_ext. intros x. apply fresh_snoc.
Qed.

Lemma obuild_first_occurrences (input : list (K * V)) :
  map fst (obuild input []) = first_occurrences (map fst input).
Proof.
  rewrite obuild_keys. simpl.
  induction (first_occurrences (map fst input)) as [| x l IH]; simpl;
    [reflexivity | rewrite IH; reflexivity].
Qed.

Lemma oset_fresh (k : K) (v : V) (d : list (K * V)) :
  ~ In k (map fst d) -> oset k v d = d ++ [(k, v)].
Proof.
  induction d as [| [k' v'] d IH]; simpl; intros Hnin; [reflexivity |].
  destruct (decide (k' = k)) as [-> | Hne]; [tauto |].
  rewrite IH by tauto. reflexivity.
Qed.

(** Items with distinct keys go into the map as they come. *)
Lemma obuild_distinct (input : list (K * V)) :
  forall d, List.NoDup (map fst d ++ map fst input) -> obuild input d = d ++ input.
Proof.
  induction input as [| [k v] input IH]; intros d Hnd.
  - simpl. rewrite app_nil_r. reflexivity.
  - change (obuild ((k, v) :: input) d) with (obuild input (oset k v d)).
    simpl in Hnd.
    assert (Hnin : ~ In k (map fst d)).
    { intros Hin. apply NoDup_remove_2 in Hnd. apply Hnd.
      apply in_or_app. left. exact Hin. }
    rewrite (oset_fresh k v d Hnin). rewrite IH.
    + rewrite <- app_assoc. reflexivity.
    + rewrite map_app, <- app_assoc. exact Hnd.
Qed.

End ordering_facts.
End OrderingFacts.

Module PaginatorOrder.
Import Py Utils Spotify OrderedMap OrderedMapFacts PaginatorSpec Paginator.
Import OrderingSpec OrderingFacts SpotifyBuildersSpec TraversalSpec.

(** The result of the album traversal is the values of the ordered map
    of the fetched items by identifier. *)
Lemma get_artist_albums_obuild (client : spotify_client) (artist_id results : value)
    (album_types : list string) (pages : list (list value)) (fuel : nat) :
  artist_albums client artist_id (join_comma album_types) = Ok results ->
  pages_from client results pages ->
  Forall identified (concat pages) ->
  (length pages <= fuel)%nat ->
  get_artist_albums fuel client artist_id album_types
  = Some (Ok (map snd (obuild (entries (concat pages)) []))).
Proof.
  intros Hfirst Hp Hall Hfuel.
  destruct (by_album_id_obuild (concat pages) Hall [] (List.Forall_nil _))
    as (d & Hrun & Hkeyed).
  unfold get_artist_albums. rewrite Hfirst. cbn [obind].
  rewrite (collect_pages_spec client pages results [] fuel Hp Hfuel).
  cbn [obind app]. rewrite Hrun. cbn [bind].
  rewrite <- (keyed_snd d), Hkeyed. reflexivity.
Qed.

Lemma obuild_entries_keys (all : list value) :
  map fst (obuild (entries all) []) = map album_key (map snd (obuild (entries all) [])).
Proof.
  rewrite map_map. apply map_ext_in. intros [k y] Hin. simpl.
  destruct (obuild_last _ _ _ Hin) as (e1 & e2 & Hsplit & _).
  assert (Hin' : In (k, y) (entries all)) by (rewrite Hsplit; apply in_elt).
  apply (entries_In all k y Hin').
Qed.

Lemma entries_keys (all : list value) : map fst (entries all) = map album_key all.
Proof. unfold entries. rewrite map_map. reflexivity. Qed.

Lemma entries_values (all : list value) : map snd (entries all) = all.
Proof. unfold entries. rewrite map_map. simpl. apply map_id. Qed.

(** X18.  The albums come out in the order in which their identifiers were
    first fetched: a later duplicate replaces the item but does not move
    it. *)
Theorem get_artist_albums_first_seen_order (client : spotify_client)
    (artist_id results : value) (album_types : list string)
    (pages : list (list value)) (fuel : nat) :
  artist_albums client artist_id (join_comma album_types) = Ok results ->
  pages_from client results pages ->
  Forall identified (concat pages) ->
  (length pages <= fuel)%nat ->
  exists albums,
    get_artist_albums fuel client artist_id album_types = Some (Ok albums)
    /\ map album_key albums = first_occurrences (map album_key (concat pages)).
Proof.
  intros Hfirst Hp Hall Hfuel.
  exists (map snd (obuild (entries (concat pages)) [])). split.
  - apply (get_artist_albums_obuild client artist_id results); assumption.
  - rewrite <- obuild_entries_keys, obuild_first_occurrences, entries_keys.
    reflexivity.
Qed.

Lemma get_artist_albums_first_seen_order_witness :
  exists albums,
    get_artist_albums 3 three_pages (VStr "artist") default_album_types
    = Some (Ok albums)
    /\ map album_key albums
       = first_occurrences (map album_key (concat three_pages_items)).
Proof.
  apply (get_artist_albums_first_seen_order three_pages (VStr "artist") page1
           default_album_types three_pages_items 3).
  - reflexivity.
  - exact three_pages_served.
  - exact three_pages_identified.
  - simpl. lia.
Defined.

(** X19.  When no identifier is fetched twice, the albums are returned as
    they were fetched, all of them and in the same order. *)
Theorem get_artist_albums_without_duplicates (client : spotify_client)
    (artist_id results : value) (album_types : list string)
    (pages : list (list value)) (fuel : nat) :
  artist_albums client artist_id (join_comma album_types) = Ok results ->
  pages_from client results pages ->
  Forall identified (concat pages) ->
  List.NoDup (map album_key (concat pages)) ->
  (length pages <= fuel)%nat ->
  get_artist_albums fuel client artist_id album_types = Some (Ok (concat pages)).
Proof.
  intros Hfirst Hp Hall Hnd Hfuel.
  rewrite (get_artist_albums_obuild client artist_id results album_types pages fuel)
    by assumption.
  rewrite obuild_distinct.
  - simpl. rewrite entries_values. reflexivity.
  - simpl. rewrite entries_keys. exact Hnd.
Qed.

Lemma get_artist_albums_without_duplicates_witness :
  get_artist_albums 1 small_catalogue (VStr "ar1") default_album_types
  = Some (Ok (concat [[VDict [("id", VStr "al1")]]])).
Proof.
  apply (get_artist_albums_without_duplicates small_catalogue (VStr "ar1")
           (VDict [("items", VList [VDict [("id", VStr "al1")]]); ("next", VNone)])).
  - reflexivity.
  - simpl. repeat split. eexists. split; reflexivity.
  - repeat constructor. eexists. split; reflexivity.
  - simpl. repeat constructor. intros [].
  - simpl. lia.
Defined.

(** The loop goes through the pages that carry a marker and arrives at
    the response after them with their items accumulated. *)
Lemma collect_pages_until (client : spotify_client) (pages : list (list value))
    (last : value) :
  forall results acc fuel,
    pages_until client results pages last ->
    collect_pages (length pages + fuel) client acc results
    = collect_pages fuel client (acc ++ concat pages) last.
Proof.
  induction pages as [| items rest IH]; intros results acc fuel Hp.
  - simpl in Hp. subst results. simpl. rewrite app_nil_r. reflexivity.
  - destruct Hp as (Htrue & Hitems & more & Hmore & Hmt & results' & Hn & Hrest).
    cbn [length Nat.add collect_pages]. rewrite Htrue, Hitems, Hmore.
    cbn [bind py_iter]. rewrite Hmt, Hn.
    rewrite (IH results' (acc ++ items) fuel Hrest).
    simpl. rewrite app_assoc. reflexivity.
Qed.

(** X20.  A page that has items but no [next] key at all stops either
    traversal with a [KeyError], and so does a failure of the provider
    when the next page is asked for, with the provider's own exception:
    the items accumulated so far are not returned. *)
Theorem traversal_fails_on_a_later_page (client : spotify_client)
    (first last : value) (pages : list (list value)) (items : list value)
    (fuel : nat) (e : exn) :
  pages_until client first pages last ->
  truthy last = true ->
  py_getitem last "items" = Ok (VList items) ->
  (py_getitem last "next" = Raise e
   \/ exists more, py_getitem last "next" = Ok more /\ truthy more = true
                   /\ next client last = Raise e) ->
  (length pages < fuel)%nat ->
  (forall album_id,
     album_tracks client album_id = Ok first ->
     get_album_tracks fuel client album_id = Some (Raise e))
  /\ (forall artist_id album_types,
        artist_albums client artist_id (join_comma album_types) = Ok first ->
        get_artist_albums fuel client artist_id album_types = Some (Raise e)).
Proof.
  intros Hp Htrue Hitems Hfail Hfuel.
  assert (Hloop : collect_pages fuel client [] first = Some (Raise e)).
  { replace fuel with (length pages + S (fuel - S (length pages)))%nat by lia.
    rewrite (collect_pages_until client pages last first [] _ Hp).
    cbn [collect_pages]. rewrite Htrue, Hitems. cbn [bind py_iter].
    destruct Hfail as [Hnext | (more & Hnext & Hmt & Hn)]; rewrite Hnext; cbn [bind].
    - reflexivity.
    - rewrite Hmt, Hn. reflexivity. }
  split.
  - intros album_id Hfirst. unfold get_album_tracks. rewrite Hfirst. cbn [obind].
    exact Hloop.
  - intros artist_id album_types Hfirst. unfold get_artist_albums.
    rewrite Hfirst. cbn [obind]. rewrite Hloop. reflexivity.
Qed.

Lemma traversal_fails_on_a_later_page_witness :
  get_album_tracks 2 unmarked_second_page (VStr "al1")
  = Some (Raise (Exn KeyError "'next'"))
  /\ get_artist_albums 2 failing_second_page (VStr "ar1") default_album_types
     = Some (Raise (Exn ClientError "429 Too Many Requests")).
Proof.
  split.
  - refine (proj1 (traversal_fails_on_a_later_page unmarked_second_page
             (VDict [("items", VList [VDict [("id", VStr "t1")]]); ("next", VStr "more")])
             (VDict [("items", VList [VDict [("id", VStr "a2")]])])
             [[VDict [("id", VStr "t1")]]] [VDict [("id", VStr "a2")]] 2
             (Exn KeyError "'next'") _ _ _ _ _) (VStr "al1") _).
    + simpl. repeat split. eexists. repeat split. eexists. split; reflexivity.
    + reflexivity.
    + reflexivity.
    + left. reflexivity.
    + simpl. lia.
    + reflexivity.
  - refine (proj2 (traversal_fails_on_a_later_page failing_second_page
             (VDict [("items", VList [VDict [("id", VStr "a1")]]); ("next", VStr "more")])
             (VDict [("items", VList [VDict [("id", VStr "a1")]]); ("next", VStr "more")])
             [] [VDict [("id", VStr "a1")]] 2
             (Exn ClientError "429 Too Many Requests") _ _ _ _ _)
             (VStr "ar1") default_album_types _).
    + reflexivity.
    + reflexivity.
    + reflexivity.
    + right. eexists. repeat split.
    + simpl. lia.
    + reflexivity.
Defined.

End PaginatorOrder.

(** ** The tracks of a Spotify artist *)

Module SpotifyTracks.
Import Py Utils Spotify SafeAccessorSpec FlattenerSpec Flattener.
Import GeniusBuildersSpec GeniusBuilders GeniusShape SpotifyBuildersSpec.

Lemma mapM_pointwise {A B} (f : A -> result B) (g : A -> B) (l : list A) :
  Forall (fun x => f x = Ok (g x)) l -> mapM f l = Ok (map g l).
Proof.
  induction 1 as [| x l Hx _ IH]; simpl; [reflexivity |].
  rewrite Hx, IH. reflexivity.
Qed.

Lemma with_album_id_annotated (album_id : value) (tracks : list value) :
  Forall (fun t => is_dict t = true) tracks ->
  mapM (with_album_id album_id) tracks = Ok (map (annotated album_id) tracks).
Proof.
  intros H. apply mapM_pointwise.
  eapply List.Forall_impl; [| exact H]. intros [| | | | | d]; simpl; try discriminate.
  reflexivity.
Qed.

Lemma album_tracks_loop_annotated (fuel : nat) (client : spotify_client)
    (albums : list value) (track_lists : list (list value)) :
  Forall2 (album_serves fuel client) albums track_lists ->
  forall all_tracks,
    album_tracks_loop fuel client albums all_tracks
    = Some (Ok (all_tracks ++ annotated_tracks albums track_lists)).
Proof.
  induction 1 as [| album tracks albums track_lists (d & -> & Hserve & Hdicts) _ IH];
    intros all_tracks.
  - simpl. rewrite app_nil_r. reflexivity.
  - cbn [album_tracks_loop annotated_tracks]. rewrite safe_get_dict. cbn [obind].
    rewrite Hserve. cbn [obind].
    rewrite (with_album_id_annotated _ tracks Hdicts). cbn [obind].
    rewrite IH, app_assoc. reflexivity.
Qed.

Lemma annotated_tracks_carry (fuel : nat) (client : spotify_client)
    (albums : list value) (track_lists : list (list value)) :
  Forall2 (album_serves fuel client) albums track_lists ->
  Forall (carries_album_id albums) (annotated_tracks albums track_lists).
Proof.
  induction 1 as [| album tracks albums track_lists (d & -> & Hserve & Hdicts) _ IH].
  - constructor.
  - cbn [annotated_tracks]. apply Forall_app. split.
    + apply List.Forall_forall. intros t Ht. apply in_map_iff in Ht as (t0 & <- & Ht0).
      pose proof (proj1 (List.Forall_forall _ _) Hdicts t0 Ht0) as Hd0.
      destruct t0 as [| | | | | d0]; try discriminate.
      exists (dict_set "spotify_album_id" (get_or d "id" UNKNOWN_VALUE) d0),
             (VDict d), (get_or d "id" UNKNOWN_VALUE).
      split; [reflexivity |]. split; [left; reflexivity |].
      split; [apply safe_get_dict |].
      rewrite dict_lookup_set, String.eqb_refl. reflexivity.
    + eapply List.Forall_impl; [| exact IH].
      intros t (d0 & album & album_id & Ht & Hin & Hid & Hlk).
      exists d0, album, album_id. repeat split; try assumption. right. exact Hin.
Qed.

(** X21.  The tracks of an artist are the tracks of each album, album after
    album in the order of the albums, and each track carries under
    [spotify_album_id] the identifier of the album it was fetched for,
    whatever the provider had put under that key. *)
Theorem get_all_tracks_of_artist_annotates (fuel : nat) (client : spotify_client)
    (artist_id : value) (albums : list value) (track_lists : list (list value)) :
  get_artist_albums fuel client artist_id default_album_types = Some (Ok albums) ->
  Forall2 (album_serves fuel client) albums track_lists ->
  get_all_tracks_of_artist fuel client artist_id
  = Some (Ok (annotated_tracks albums track_lists))
  /\ Forall (carries_album_id albums) (annotated_tracks albums track_lists).
Proof.
  intros Halbums Hserve. split.
  - unfold get_all_tracks_of_artist. rewrite Halbums. cbn [obind].
    apply (album_tracks_loop_annotated fuel client albums track_lists Hserve []).
  - apply (annotated_tracks_carry fuel client). exact Hserve.
Qed.

Lemma small_catalogue_serves :
  Forall2 (album_serves 1 small_catalogue) [VDict [("id", VStr "al1")]]
    [[VDict [("id", VStr "t1"); ("name", VStr "one")]; VDict [("name", VStr "two")]]].
Proof.
  constructor; [| constructor].
  eexists. split; [reflexivity |]. split; [reflexivity | repeat constructor].
Qed.

Lemma get_all_tracks_of_artist_annotates_witness :
  get_all_tracks_of_artist 1 small_catalogue (VStr "ar1")
  = Some (Ok (annotated_tracks [VDict [("id", VStr "al1")]]
                [[VDict [("id", VStr "t1"); ("name", VStr "one")];
                  VDict [("name", VStr "two")]]]))
  /\ Forall (carries_album_id [VDict [("id", VStr "al1")]])
       (annotated_tracks [VDict [("id", VStr "al1")]]
          [[VDict [("id", VStr "t1"); ("name", VStr "one")];
            VDict [("name", VStr "two")]]]).
Proof.
  apply (get_all_tracks_of_artist_annotates 1 small_catalogue (VStr "ar1")).
  - reflexivity.
  - exact small_catalogue_serves.
Defined.

Lemma track_record_without_id (client : spotify_client) (artist_id : value) (d : dict) :
  get_or d "id" UNKNOWN_VALUE = UNKNOWN_VALUE ->
  spotify_track_record client artist_id (VDict d)
  = Ok (VDict (spotify_track_fields artist_id d
               ++ [("track_audio_features_spotify", VDict [])])).
Proof.
  intros Hid. unfold spotify_track_record, spotify_track_fields.
  rewrite !safe_get_dict. cbn [bind]. rewrite Hid. reflexivity.
Qed.

(** X22.  For tracks without identifier, and for tracks whose identifier is
    the very string of the sentinel, no audio features are asked for:
    whatever the provider would answer, each record is the seven fields
    of the track. *)
Theorem tracks_without_id_get_no_features (fuel : nat) (client : spotify_client)
    (artist_id : value) (tracks : list value) :
  get_all_tracks_of_artist fuel client artist_id = Some (Ok tracks) ->
  Forall without_id tracks ->
  build_spotify_artist_tracks fuel client artist_id
  = Some (Ok (map (track_without_features artist_id) tracks)).
Proof.
  intros Htracks Hno. unfold build_spotify_artist_tracks. rewrite Htracks.
  cbn [obind].
  assert (Hrec : mapM (spotify_track_record client artist_id) tracks
                 = Ok (map (fun t =>
                         match t with
                         | VDict d =>
                             VDict (spotify_track_fields artist_id d
                                    ++ [("track_audio_features_spotify", VDict [])])
                         | _ => t
                         end) tracks)).
  { apply mapM_pointwise. eapply List.Forall_impl; [| exact Hno].
    intros t (d & -> & Hid). apply track_record_without_id. exact Hid. }
  rewrite Hrec. cbn [bind]. f_equal. clear Hrec Htracks.
  induction Hno as [| t tracks (d & -> & _) _ IH]; [reflexivity |].
  cbn [map mapM]. rewrite IH. reflexivity.
Qed.

Lemma tracks_without_id_get_no_features_witness :
  build_spotify_artist_tracks 1 anonymous_tracks (VStr "ar1")
  = Some (Ok (map (track_without_features (VStr "ar1"))
                [VDict [("name", VStr "one"); ("spotify_album_id", VStr "al1")];
                 VDict [("name", VStr "two"); ("spotify_album_id", VStr "al1")]])).
Proof.
  apply (tracks_without_id_get_no_features 1 anonymous_tracks (VStr "ar1")).
  - reflexivity.
  - repeat constructor; eexists; split; reflexivity.
Defined.

Lemma dict_lookup_present (k : string) (d : dict) :
  In k (map fst d) -> dict_lookup k d <> None.
Proof.
  induction d as [| [a b] d IH]; simpl; [tauto |].
  intros [<- | Hin]; [rewrite String.eqb_refl; discriminate |].
  destruct (String.eqb a k); [discriminate | apply IH; exact Hin].
Qed.

Lemma dict_lookup_app_present (k : string) (d1 d2 : dict) :
  In k (map fst d1) -> dict_lookup k (d1 ++ d2) <> None.
Proof. intros Hin. apply dict_lookup_present. rewrite map_app. apply in_or_app. tauto. Qed.

Lemma dict_update_keeps (k : string) (other : dict) :
  forall d, dict_lookup k d <> None -> dict_lookup k (dict_update d other) <> None.
Proof.
  unfold dict_update. induction other as [| [a b] other IH]; simpl; intros d Hd;
    [exact Hd |].
  apply IH. rewrite dict_lookup_set. destruct (String.eqb a k); [discriminate | exact Hd].
Qed.

Lemma spotify_track_record_inv (client : spotify_client) (artist_id t rec : value) :
  spotify_track_record client artist_id t = Ok rec ->
  exists fields features,
    rec = VDict (fields ++ [("track_audio_features_spotify", features)])
    /\ map fst fields = spotify_track_keys.
Proof.
  intros H. unfold spotify_track_record in H. bind_cases H.
  injection H as <-. eexists [_; _; _; _; _; _; _], _. split; reflexivity.
Qed.

Lemma flattened_track_record (fields : dict) (features r : value) :
  map fst fields = spotify_track_keys ->
  flat_nested_contents
    (VDict (fields ++ [("track_audio_features_spotify", features)]))
    (VStr "track_audio_features_spotify") = Ok r ->
  flat_track_record r.
Proof.
  intros Hkeys H. rewrite flat_nested_contents_dict in H. injection H as <-.
  eexists. split; [reflexivity |]. split.
  - unfold flattened. rewrite dict_lookup_pop, String.eqb_refl. reflexivity.
  - intros k Hk. unfold flattened. rewrite dict_lookup_pop.
    assert (Hne : String.eqb "track_audio_features_spotify" k = false).
    { apply String.eqb_neq. intros <-. simpl in Hk.
      repeat (destruct Hk as [Hk | Hk]; [discriminate Hk |]). exact Hk. }
    rewrite Hne.
    assert (Hin : dict_lookup k
                    (fields ++ [("track_audio_features_spotify", features)]) <> None).
    { apply dict_lookup_app_present. rewrite Hkeys. exact Hk. }
    destruct (dict_lookup "track_audio_features_spotify"
                (fields ++ [("track_audio_features_spotify", features)]))
      as [[| | | | | nested] |]; try exact Hin.
    apply dict_update_keeps. exact Hin.
Qed.

(** X23.  Every record that [build_spotify_artist_tracks] returns is a flat
    mapping: the seven fields of the track are there, the nested
    [track_audio_features_spotify] is not, whatever the audio features
    were; and there is one record per track of the artist. *)
Theorem build_spotify_artist_tracks_records (fuel : nat) (client : spotify_client)
    (artist_id : value) (records : list value) :
  build_spotify_artist_tracks fuel client artist_id = Some (Ok records) ->
  exists tracks,
    get_all_tracks_of_artist fuel client artist_id = Some (Ok tracks)
    /\ length records = length tracks
    /\ Forall flat_track_record records.
Proof.
  unfold build_spotify_artist_tracks.
  destruct (get_all_tracks_of_artist fuel client artist_id) as [[tracks | e] |];
    cbn [obind]; try discriminate.
  intros H. injection H as H.
  destruct (mapM (spotify_track_record client artist_id) tracks) as [recs | e] eqn:Hrecs;
    cbn [bind] in H; [| discriminate H].
  apply mapM_Forall2 in Hrecs. apply mapM_Forall2 in H.
  exists tracks. split; [reflexivity |]. split.
  - transitivity (length recs); symmetry; eapply Forall2_length; eassumption.
  - clear - Hrecs H. revert records H.
    induction Hrecs as [| t rec tracks recs Hrec _ IH]; intros records H.
    + inversion H; subst. constructor.
    + inversion H as [| ? r ? records' Hflat Hrest]; subst.
      constructor; [| apply IH; exact Hrest].
      destruct (spotify_track_record_inv _ _ _ _ Hrec) as (fields & features & -> & Hk).
      apply (flattened_track_record fields features r Hk Hflat).
Qed.

Lemma build_spotify_artist_tracks_records_witness :
  exists tracks,
    get_all_tracks_of_artist 1 small_catalogue (VStr "ar1") = Some (Ok tracks)
    /\ length [VDict [("spotify_artist_id", VStr "ar1"); ("spotify_track_id", VStr "t1");
                      ("spotify_track_name", VStr "one");
                      ("spotify_track_uri", UNKNOWN_VALUE);
                      ("spotify_track_url", UNKNOWN_VALUE);
                      ("track_number", UNKNOWN_VALUE);
                      ("spotify_album_id", VStr "al1"); ("tempo", VInt 120)];
               VDict [("spotify_artist_id", VStr "ar1");
                      ("spotify_track_id", UNKNOWN_VALUE);
                      ("spotify_track_name", VStr "two");
                      ("spotify_track_uri", UNKNOWN_VALUE);
                      ("spotify_track_url", UNKNOWN_VALUE);
                      ("track_number", UNKNOWN_VALUE);
                      ("spotify_album_id", VStr "al1")]]
       = length tracks
    /\ Forall flat_track_record
         [VDict [("spotify_artist_id", VStr "ar1"); ("spotify_track_id", VStr "t1");
                 ("spotify_track_name", VStr "one");
                 ("spotify_track_uri", UNKNOWN_VALUE);
                 ("spotify_track_url", UNKNOWN_VALUE);
                 ("track_number", UNKNOWN_VALUE);
                 ("spotify_album_id", VStr "al1"); ("tempo", VInt 120)];
          VDict [("spotify_artist_id", VStr "ar1");
                 ("spotify_track_id", UNKNOWN_VALUE);
                 ("spotify_track_name", VStr "two");
                 ("spotify_track_uri", UNKNOWN_VALUE);
                 ("spotify_track_url", UNKNOWN_VALUE);
                 ("track_number", UNKNOWN_VALUE);
                 ("spotify_album_id", VStr "al1")]].
Proof.
  apply (build_spotify_artist_tracks_records 1 small_catalogue (VStr "ar1")).
  vm_compute. reflexivity.
Defined.

Lemma build_spotify_artist_data_inv (client : spotify_client) (r data : value) :
  build_spotify_artist_data client r = Ok data ->
  exists artist_id fields,
    safe_get r (VStr "id") UNKNOWN_VALUE = Ok artist_id
    /\ data = VDict (("spotify_artist_id", artist_id) :: fields).
Proof.
  intros H. unfold build_spotify_artist_data in H. bind_cases H.
  injection H as <-. eexists _, _. split; reflexivity.
Qed.

(** X24.  When the search and the artist builder succeed, the tracks are
    built for the identifier of the artist found, the sentinel if the
    search result has none, and the fetch returns the artist record and
    the track records side by side. *)
Theorem fetch_spotify_artist_data_returns (fuel : nat) (client : spotify_client)
    (artist_name : string) (r data : value) :
  spotify_artist_search client artist_name = Ok r ->
  build_spotify_artist_data client r = Ok data ->
  exists artist_id,
    safe_get r (VStr "id") UNKNOWN_VALUE = Ok artist_id
    /\ py_getitem data "spotify_artist_id" = Ok artist_id
    /\ (forall tracks,
          build_spotify_artist_tracks fuel client artist_id = Some (Ok tracks) ->
          fetch_spotify_artist_data fuel client artist_name
          = Some (Ok (VDict [("artist_data", data); ("artist_tracks", VList tracks)]))).
Proof.
  intros Hs Hb.
  destruct (build_spotify_artist_data_inv client r data Hb)
    as (artist_id & fields & Hid & Hdata).
  exists artist_id. split; [exact Hid |]. split; [rewrite Hdata; reflexivity |].
  intros tracks Ht. unfold fetch_spotify_artist_data. rewrite Hs. cbn [obind].
  rewrite Hb. cbn [obind]. rewrite Hdata.
  change (py_getitem (VDict (("spotify_artist_id", artist_id) :: fields))
            "spotify_artist_id") with (@Ok value artist_id).
  cbn [obind]. rewrite Ht. reflexivity.
Qed.

Lemma fetch_spotify_artist_data_returns_witness :
  exists artist_id,
    safe_get (VDict [("id", VStr "ar1"); ("name", VStr "X");
                     ("images", VList [VDict [("url", VStr "http://img")]])])
      (VStr "id") UNKNOWN_VALUE = Ok artist_id
    /\ py_getitem
         (VDict (spotify_artist_record
                   [("id", VStr "ar1"); ("name", VStr "X");
                    ("images", VList [VDict [("url", VStr "http://img")]])]
                   [("url", VStr "http://img")]
                   [VDict [("name", VStr "Y")]; VDict []]))
         "spotify_artist_id" = Ok artist_id
    /\ (forall tracks,
          build_spotify_artist_tracks 1 small_catalogue artist_id = Some (Ok tracks) ->
          fetch_spotify_artist_data 1 small_catalogue "X"
          = Some (Ok (VDict [("artist_data",
                              VDict (spotify_artist_record
                                       [("id", VStr "ar1"); ("name", VStr "X");
                                        ("images",
                                         VList [VDict [("url", VStr "http://img")]])]
                                       [("url", VStr "http://img")]
                                       [VDict [("name", VStr "Y")]; VDict []]));
                             ("artist_tracks", VList tracks)]))).
Proof.
  apply (fetch_spotify_artist_data_returns 1 small_catalogue "X").
  - reflexivity.
  - vm_compute. reflexivity.
Defined.

End SpotifyTracks.
